(** * DitheryDoo: the encoding wrapper and the batch controller

    A shallow embedding of [ffmpeg_encode.py] and [pipeline.py].

    Python values are carried as follows.
    - [str] is a [string]; text that is not ASCII is held by its UTF-8
      bytes, so that [bytes.decode('utf-8')] keeps the bytes it accepts.
    - a [dict] with string keys is a [gmap string _]; a profile, whose keys
      are known and whose values have different types, is a record of
      optional fields (a field is [None] when the key is absent).
    - [pathlib.Path] is an anchor (drive and root) and the list of the
      names below it.
    - what the outside world answers (whether a process starts, what the
      encoder writes and returns, what a directory holds) is an argument
      of the function that asks; what the program does to the outside
      world is a list of events, oldest first.
    - what the outside world refuses is an argument too: a line that the
      standard output cannot encode, a directory that cannot be made, a
      logging set-up that fails.  The functions named after the source
      ([encode_video], [main]) are the ones of a world that refuses none
      of this; [encode_video_on] and [main_on] take the refusals.  The error stream and the logging calls never
      raise: [sys.stderr] replaces what it cannot encode, and [logging]
      handles the errors of its handlers itself. *)

From Stdlib Require Import Strings.Byte Strings.Ascii.
From stdpp Require Import gmap strings list fin_maps pretty.

Open Scope string_scope.
Open Scope list_scope.

(** ** Results of a call, and the trace it leaves *)

Inductive exn :=
| FileNotFoundError (detail : string)
| KeyError (key : string)
| ValueError (detail : string)
| UnicodeDecodeError
| OtherException (detail : string).

(** A call returns, raises an [Exception], or leaves through [sys.exit]
    ([SystemExit] is not an [Exception]: [except Exception] lets it pass). *)
Inductive outcome (A : Type) :=
| Returned (a : A)
| Raised (e : exn)
| Exited (code : Z).
Arguments Returned {A} a.
Arguments Raised {A} e.
Arguments Exited {A} code.

Definition run (E A : Type) : Type := outcome A * list E.

Definition run_ret {E A} (a : A) : run E A := (Returned a, []).

Definition run_bind {E A B} (m : run E A) (k : A → run E B) : run E B :=
  match m with
  | (Returned a, t) => let '(r, t') := k a in (r, t ++ t')
  | (Raised e, t) => (Raised e, t)
  | (Exited c, t) => (Exited c, t)
  end.

Definition emit {E} (e : E) : run E unit := (Returned tt, [e]).
Definition raise {E A} (e : exn) : run E A := (Raised e, []).
Definition sys_exit {E A} (code : Z) : run E A := (Exited code, []).

(** [try: m  except Exception as e: h e] *)
Definition try_except {E A} (m : run E A) (h : exn → run E A) : run E A :=
  match m with
  | (Raised e, t) => let '(r, t') := h e in (r, t ++ t')
  | other => other
  end.

Notation "x <- m ;; k" := (run_bind m (λ x, k))
  (at level 100, m at next level, right associativity).
Notation "m ;;; k" := (run_bind m (λ _, k))
  (at level 100, right associativity).

Definition result {E A} (m : run E A) : outcome A := m.1.
Definition trace {E A} (m : run E A) : list E := m.2.

(** ** ffmpeg_encode.py *)

Module ffmpeg_encode.

(** One entry of [ENCODING_PROFILES]: the keys the module reads. *)
Record encoding_profile := {
  codec : option string;
  profile : option string;
  level : option string;
  pix_fmt : option string;
  extra_args : option (list string)
}.

Definition ENCODING_PROFILES : gmap string encoding_profile :=
  list_to_map [
    ("prores_422_hq_10bit",
      {| codec := Some "prores_ks"; profile := Some "3"; level := None;
         pix_fmt := Some "yuv422p10le";
         extra_args := Some ["-vendor"; "apl0"] |});
    ("prores_444_16bit",
      {| codec := Some "prores_ks"; profile := Some "4"; level := None;
         pix_fmt := Some "yuv444p16le";
         extra_args := Some ["-vendor"; "apl0"] |});
    ("ffv1_10bit_422",
      {| codec := Some "ffv1"; profile := None; level := Some "3";
         pix_fmt := Some "yuv422p10le";
         extra_args := Some ["-coder"; "1"; "-context"; "1"; "-g"; "1"] |});
    ("ffv1_12bit_444",
      {| codec := Some "ffv1"; profile := None; level := Some "3";
         pix_fmt := Some "yuv444p12le";
         extra_args := Some ["-coder"; "1"; "-context"; "1"; "-g"; "1"] |})
  ].

(** [not profile]: a dict is false when it has no key. *)
Definition is_empty_profile (p : encoding_profile) : bool :=
  match codec p, profile p, level p, pix_fmt p, extra_args p with
  | None, None, None, None, None => true
  | _, _, _, _, _ => false
  end.

Definition vspipe_cmd (vpy_script : string) : list string :=
  ["vspipe"; "-c"; "y4m"; vpy_script; "-"].

(** [l.extend(xs)] on the list being built. *)
Definition extend (l xs : list string) : list string := l ++ xs.

(** The encoder command of [encode_video]; [None] is the [KeyError] of
    [profile['codec']] or [profile['pix_fmt']]. *)
Definition ffmpeg_cmd (p : encoding_profile) (input_path output_path : string)
  : option (list string) :=
  match codec p, pix_fmt p with
  | Some c, Some f =>
    let cmd := ["ffmpeg";
                "-i"; "pipe:0";
                "-i"; input_path;
                "-map"; "0:v";
                "-map"; "1:a?";
                "-map"; "1:s?";
                "-c:v"; c;
                "-pix_fmt"; f] in
    let cmd := match profile p with
               | Some x => extend cmd ["-profile:v"; x]
               | None => cmd
               end in
    let cmd := match level p with
               | Some x => extend cmd ["-level:v"; x]
               | None => cmd
               end in
    let cmd := extend cmd (default [] (extra_args p)) in
    let cmd := extend cmd ["-c:a"; "copy"; "-c:s"; "copy"; "-y"; output_path] in
    Some cmd
  | _, _ => None
  end.

(** *** [bytes.decode('utf-8')]

    The strict decoder: shortest forms only, no surrogates, nothing above
    U+10FFFF.  It raises [UnicodeDecodeError] on anything else. *)

Definition in_range (lo hi : N) (b : byte) : bool :=
  ((lo <=? Byte.to_N b) && (Byte.to_N b <=? hi))%N.

Definition continuation (b : byte) : bool := in_range 0x80 0xBF b.

Definition lead3 (b0 b1 : byte) : bool :=
  (in_range 0xE0 0xE0 b0 && in_range 0xA0 0xBF b1)
  || (in_range 0xE1 0xEC b0 && continuation b1)
  || (in_range 0xED 0xED b0 && in_range 0x80 0x9F b1)
  || (in_range 0xEE 0xEF b0 && continuation b1).

Definition lead4 (b0 b1 : byte) : bool :=
  (in_range 0xF0 0xF0 b0 && in_range 0x90 0xBF b1)
  || (in_range 0xF1 0xF3 b0 && continuation b1)
  || (in_range 0xF4 0xF4 b0 && in_range 0x80 0x8F b1).

Fixpoint utf8_valid (bs : list byte) : bool :=
  match bs with
  | [] => true
  | b0 :: r0 =>
    if in_range 0x00 0x7F b0 then utf8_valid r0 else
    match r0 with
    | [] => false
    | b1 :: r1 =>
      if in_range 0xC2 0xDF b0 then continuation b1 && utf8_valid r1 else
      match r1 with
      | [] => false
      | b2 :: r2 =>
        if lead3 b0 b1 then continuation b2 && utf8_valid r2 else
        match r2 with
        | [] => false
        | b3 :: r3 =>
          lead4 b0 b1 && continuation b2 && continuation b3 && utf8_valid r3
        end
      end
    end
  end.

Definition decode_utf8 (bs : list byte) : option string :=
  if utf8_valid bs then Some (String.string_of_list_byte bs) else None.

(** *** The two processes *)

(** What the operating system answers during one call of [encode_video]. *)
Record job_world := {
  (** [Popen(vspipe_cmd, ...)]: [None] when the process starts *)
  vspipe_popen : option exn;
  (** [Popen(ffmpeg_cmd, ...)] *)
  ffmpeg_popen : option exn;
  (** [ffmpeg_process.communicate()] and then [returncode]:
      stdout, stderr and the exit code, or an exception *)
  ffmpeg_communicate : exn + (list byte * list byte * Z);
  (** the exit status of the frame source; [encode_video] never asks *)
  vspipe_returncode : Z
}.

Inductive io_event :=
| Stdout (line : string)
| Stderr (line : string)
(** [print(f"{prefix}{e}", file=sys.stderr)]; the text of [e] is Python's *)
| StderrExn (prefix : string) (e : exn)
(** [subprocess.Popen(cmd, env=env)] is attempted *)
| Popen (cmd : list string) (env : option (gmap string string))
(** [vspipe_process.stdout.close()] *)
| ClosePipe
(** [ffmpeg_process.communicate()] *)
| Communicate.

Definition profile_not_found (format_name : string) : run io_event bool :=
  emit (Stderr ("Error: Encoding profile for '" +:+ format_name +:+ "' not found."));;;
  run_ret false.

(** The body of the [try] block. *)
Definition run_pipeline (w : job_world) (vspipe_cmd ffmpeg_cmd : list string)
    (process_env : gmap string string) : run io_event bool :=
  emit (Popen vspipe_cmd (Some process_env));;;
  match vspipe_popen w with
  | Some e => raise e
  | None =>
    emit (Popen ffmpeg_cmd None);;;
    match ffmpeg_popen w with
    | Some e => raise e
    | None =>
      emit ClosePipe;;;
      emit Communicate;;;
      match ffmpeg_communicate w with
      | inl e => raise e
      | inr (stdout, stderr, returncode) =>
        if bool_decide (returncode ≠ 0%Z) then
          emit (Stderr "Error during FFmpeg execution:");;;
          match decode_utf8 stderr with
          | Some text => emit (Stderr text);;; run_ret false
          | None => raise UnicodeDecodeError
          end
        else run_ret true
      end
    end
  end.

(** The two [except] clauses, tried in order. *)
Definition handle (e : exn) : run io_event bool :=
  match e with
  | FileNotFoundError _ =>
    emit (Stderr "Error: Command not found. Is FFmpeg or VapourSynth in your system's PATH?");;;
    emit (StderrExn "" e);;;
    run_ret false
  | _ =>
    emit (StderrExn "An unexpected error occurred: " e);;;
    run_ret false
  end.

(** [print(line)] on [sys.stdout], which encodes strictly:
    [stdout_error line] is what the call raises, [None] when the line is
    written. *)
Definition print_stdout (stdout_error : string → option exn) (line : string)
  : run io_event unit :=
  match stdout_error line with
  | Some e => raise e
  | None => emit (Stdout line)
  end.

Definition encode_video_on (stdout_error : string → option exn) (w : job_world)
    (input_path output_path format_name vpy_script : string)
    (process_env : gmap string string) : run io_event bool :=
  match ENCODING_PROFILES !! format_name with
  | None => profile_not_found format_name
  | Some p =>
    if is_empty_profile p then profile_not_found format_name else
    let vspipe_cmd := vspipe_cmd vpy_script in
    match ffmpeg_cmd p input_path output_path with
    | None => raise (KeyError (if codec p is Some _ then "pix_fmt" else "codec"))
    | Some ffmpeg_cmd =>
      print_stdout stdout_error
        ("VSPipe command: " +:+ String.concat " " vspipe_cmd);;;
      print_stdout stdout_error
        ("FFmpeg command: " +:+ String.concat " " ffmpeg_cmd);;;
      try_except (run_pipeline w vspipe_cmd ffmpeg_cmd process_env) handle
    end
  end.

(** [encode_video] on a standard output that takes every line. *)
Definition encode_video (w : job_world)
    (input_path output_path format_name vpy_script : string)
    (process_env : gmap string string) : run io_event bool :=
  encode_video_on (λ _, None) w
    input_path output_path format_name vpy_script process_env.

End ffmpeg_encode.

(** ** pathlib *)

Module pathlib.

(** A pure path: the anchor (drive and root, empty for a relative path) and
    the names below it.  [Path('.')] has no anchor and no name. *)
Record path := { anchor : string; names : list string }.

#[global] Instance path_eq_dec : EqDecision path.
Proof. solve_decision. Defined.

(** [p / q] *)
Definition joinpath (p q : path) : path :=
  if bool_decide (anchor q = "") then
    {| anchor := anchor p; names := names p ++ names q |}
  else q.

(** [p / name], for a string that is one path component *)
Definition joinname (p : path) (name : string) : path :=
  {| anchor := anchor p; names := names p ++ [name] |}.

(** [p.parent] *)
Definition parent (p : path) : path :=
  {| anchor := anchor p; names := removelast (names p) |}.

(** [p.name] *)
Definition name (p : path) : string := List.last (names p) "".

(** [p.relative_to(base)]; [None] is the [ValueError] raised when [p] is
    not below [base]. *)
Fixpoint strip_prefix (pre l : list string) : option (list string) :=
  match pre, l with
  | [], _ => Some l
  | x :: pre', y :: l' => if bool_decide (x = y) then strip_prefix pre' l' else None
  | _ :: _, [] => None
  end.

Definition relative_to (p base : path) : option path :=
  if bool_decide (anchor p = anchor base) then
    rest ← strip_prefix (names base) (names p);
    Some {| anchor := ""; names := rest |}
  else None.

(** [s.rfind('.')] *)
Fixpoint rfind_dot (s : string) : option nat :=
  match s with
  | EmptyString => None
  | String c r =>
    match rfind_dot r with
    | Some i => Some (S i)
    | None => if bool_decide (c = "."%char) then Some 0 else None
    end
  end.

(** Where the suffix of a name starts: the last dot, unless it is the first
    or the last character. *)
Definition suffix_start (n : string) : option nat :=
  match rfind_dot n with
  | Some i =>
    if bool_decide (0 < i) && bool_decide (i < String.length n - 1)
    then Some i else None
  | None => None
  end.

(** [p.suffix] *)
Definition suffix (p : path) : string :=
  match suffix_start (name p) with
  | Some i => String.substring i (String.length (name p) - i) (name p)
  | None => ""
  end.

(** [p.stem] *)
Definition stem (p : path) : string :=
  match suffix_start (name p) with
  | Some i => String.substring 0 i (name p)
  | None => name p
  end.

(** [str(p)], with the separator of the host *)
Definition str (sep : string) (p : path) : string :=
  match anchor p, names p with
  | EmptyString, [] => "."
  | a, ns => a +:+ String.concat sep ns
  end.

End pathlib.

(** [needle in hay] on strings *)
Fixpoint contains (needle hay : string) : bool :=
  String.prefix needle hay ||
  match hay with
  | EmptyString => false
  | String _ rest => contains needle rest
  end.

(** ** pipeline.py *)

Module pipeline.
Import pathlib.

(** The user configuration block at the top of the module. *)
Record config := {
  input_file : string;
  input_directory : string;
  output_base_directory : string;
  batch_process_directory : bool;
  process_subdirectories : bool;
  test_mode : bool;
  test_frames : Z;
  enable_prores_422_hq_10bit : bool;
  enable_prores_444_16bit : bool;
  enable_ffv1_10bit_422 : bool;
  enable_ffv1_12bit_444 : bool;
  use_nvidia_gpu : bool;
  dithering_algorithm : string;
  enable_debanding : bool;
  debanding_strength : string;
  log_level : string
}.

(** The values the repository ships. *)
Definition shipped : config := {|
  input_file := "G:/YOUTUBE_CHANNEL_MEDIA/DitheryDoo/src/FULL MOON VIDEO HD.mkv";
  input_directory := "G:/00_development_projects/DitheryDoo/input";
  output_base_directory := "G:/YOUTUBE_CHANNEL_MEDIA/DitheryDoo/vapourized";
  batch_process_directory := false;
  process_subdirectories := false;
  test_mode := false;
  test_frames := 200;
  enable_prores_422_hq_10bit := true;
  enable_prores_444_16bit := false;
  enable_ffv1_10bit_422 := false;
  enable_ffv1_12bit_444 := false;
  use_nvidia_gpu := true;
  dithering_algorithm := "floyd_steinberg";
  enable_debanding := true;
  debanding_strength := "maximum";
  log_level := "INFO"
|}.

(** The machine the script runs on, and the Python runtime there. *)
Record host := {
  (** [Path(s)], in the path flavour of the host *)
  Path : string → path;
  (** [os.sep] *)
  sep : string;
  (** [s.lower()] *)
  lower : string → string;
  (** [os.environ] *)
  environ : gmap string string;
  (** [datetime.now().strftime("%Y-%m-%d_%H-%M-%S")] *)
  now : string;
  (** [subprocess.run([cmd, '-h'], ...)]: [None] when the command ran *)
  run_help : string → option exn;
  (** [Path(d).glob(pattern)]: the names, below [d], of each match *)
  glob : path → string → list (list string);
  (** [p.is_file()] *)
  is_file : path → bool;
  (** [Path(__file__).parent] *)
  script_dir : path
}.

Inductive level := DEBUG | INFO | WARNING | ERROR.

Inductive event :=
(** [p.mkdir(parents=True, exist_ok=True)] *)
| Mkdir (p : path)
(** [logging.basicConfig] with a [FileHandler] on [log_file] *)
| LoggingSetup (log_level : string) (log_file : path)
(** a call of [logging.info], [logging.warning] or [logging.error] *)
| Log (lvl : level) (msg : string)
(** the same, for a message that ends with the text of an exception *)
| LogExn (lvl : level) (prefix : string) (e : exn)
(** [subprocess.run([cmd, '-h'], ...)] *)
| RunHelp (cmd : string)
(** a call of [ffmpeg_encode.encode_video], with what it did and how it
    ended *)
| Encode (input_path output_path format_name vpy_script : string)
         (env : gmap string string)
         (io : list ffmpeg_encode.io_event) (r : outcome bool).

(** [ffmpeg_encode.encode_video] as the controller finds it when it makes
    its [k]-th call (counted from 0). *)
Definition orchestrator : Type :=
  nat → string → string → string → string → gmap string string →
  run ffmpeg_encode.io_event bool.


(** [str(b)] for a bool *)
Definition str_bool (b : bool) : string := if b then "True" else "False".

Fixpoint check_commands (h : host) (cmds : list string) : run event bool :=
  match cmds with
  | [] => run_ret true
  | cmd :: rest =>
    emit (RunHelp cmd);;;
    match run_help h cmd with
    | None => check_commands h rest
    | Some (FileNotFoundError _) =>
      emit (Log ERROR ("Dependency not found: " +:+ cmd +:+
              ". Please ensure it is installed and in your system's PATH."));;;
      run_ret false
    | Some e => raise e
    end
  end.

Definition check_dependencies (h : host) : run event bool :=
  check_commands h ["ffmpeg"; "vspipe"].

Definition get_selected_format (cfg : config) : option string :=
  let formats := [
    ("prores_422_hq_10bit", enable_prores_422_hq_10bit cfg);
    ("prores_444_16bit", enable_prores_444_16bit cfg);
    ("ffv1_10bit_422", enable_ffv1_10bit_422 cfg);
    ("ffv1_12bit_444", enable_ffv1_12bit_444 cfg)
  ] in
  let selected := (filter (λ item, item.2 = true) formats).*1 in
  if bool_decide (length selected = 1) then head selected else None.

Definition supported_extensions : list string :=
  [".mp4"; ".mov"; ".avi"; ".mkv"; ".mxf"; ".m2v"].

Definition find_video_files (h : host) (directory : string) (recursive : bool)
  : list path :=
  let glob_pattern := if recursive then "**/*" else "*" in
  let d := Path h directory in
  filter (λ p, is_file h p = true ∧ lower h (suffix p) ∈ supported_extensions)
         ((λ rel, {| anchor := anchor d; names := names d ++ rel |})
            <$> glob h d glob_pattern).

Definition process_file (encode_video : string → string → string → string →
                           gmap string string → run ffmpeg_encode.io_event bool)
    (cfg : config) (h : host)
    (input_path output_path : path) (selected_format : string)
    (vpy_script_path : path) : run event unit :=
  emit (Log INFO ("Processing file: " +:+ str (sep h) input_path));;;
  let env := environ h in
  let env := <["VS_INPUT_PATH" := str (sep h) input_path]> env in
  let env := <["VS_TARGET_FORMAT" := selected_format]> env in
  let env := <["VS_USE_GPU" := str_bool (use_nvidia_gpu cfg)]> env in
  let env := <["VS_DITHER_MODE" := dithering_algorithm cfg]> env in
  let env := <["VS_TEST_FRAMES" :=
                 if test_mode cfg then pretty (test_frames cfg) else "0"]> env in
  let env := <["VS_ENABLE_DEBANDING" := str_bool (enable_debanding cfg)]> env in
  let env := <["VS_DEBAND_STRENGTH" := debanding_strength cfg]> env in
  try_except
    (let call := encode_video (str (sep h) input_path) (str (sep h) output_path)
                   selected_format (str (sep h) vpy_script_path) env in
     success <- (result call,
                 [Encode (str (sep h) input_path) (str (sep h) output_path)
                    selected_format (str (sep h) vpy_script_path) env
                    (trace call) (result call)]);;
     if success : bool then
       emit (Log INFO ("Successfully processed and saved to " +:+
                       str (sep h) output_path))
     else
       emit (Log ERROR ("Failed to process file: " +:+ str (sep h) input_path)))
    (λ e, emit (LogExn ERROR ("An unexpected error occurred while processing "
                  +:+ str (sep h) input_path +:+ ": ") e)).

(** What the controller can be refused by the operating system and by
    [logging]. *)
Record refusals := {
  (** [p.mkdir(parents=True, exist_ok=True)]: what it raises, [None] when
      the directory is there afterwards *)
  mkdir_error : path → option exn;
  (** [logging.basicConfig(...)] with its [FileHandler]: what it raises,
      the handler when the log file cannot be opened, [basicConfig] when
      what [getattr(logging, log_level.upper(), logging.INFO)] finds is not
      a level ([ValueError]); [None] when logging is set up *)
  logging_error : option exn
}.

Definition no_refusals : refusals :=
  {| mkdir_error := λ _, None; logging_error := None |}.

(** [p.mkdir(parents=True, exist_ok=True)] *)
Definition mkdir (r : refusals) (p : path) : run event unit :=
  match mkdir_error r p with
  | Some e => raise e
  | None => emit (Mkdir p)
  end.

(** The directory a job writes into. *)
Definition output_file_dir (cfg : config) (h : host) (output_dir file_path : path)
  : run event path :=
  if batch_process_directory cfg then
    match relative_to file_path (Path h (input_directory cfg)) with
    | Some relative_path => run_ret (joinpath output_dir (parent relative_path))
    | None => raise (ValueError "not in the subpath")
    end
  else run_ret output_dir.

(** The extension of the output file. *)
Definition file_ext (selected_format : string) : run event string :=
  match ffmpeg_encode.ENCODING_PROFILES !! selected_format with
  | None => raise (KeyError selected_format)
  | Some p =>
    let file_ext := default "mov" (ffmpeg_encode.codec p) in
    run_ret (if contains "prores" selected_format then "mov"
             else if contains "ffv1" selected_format then "mkv"
             else file_ext)
  end.

Definition output_filename (file_path : path) (timestamp selected_format ext : string)
  : string :=
  stem file_path +:+ "_" +:+ timestamp +:+ "_" +:+ selected_format +:+ "." +:+ ext.

(** One turn of the [for] loop of [main]. *)
Definition loop_body (r : refusals) (orch : orchestrator) (cfg : config)
    (h : host) (timestamp : string) (output_dir : path) (selected_format : string)
    (vpy_script_path : path) (total_files : nat)
    (i : nat) (file_path : path) : run event unit :=
  emit (Log INFO ("--- Processing file " +:+ pretty (i + 1) +:+ "/" +:+
                  pretty total_files +:+ " ---"));;;
  dir <- output_file_dir cfg h output_dir file_path;;
  mkdir r dir;;;
  ext <- file_ext selected_format;;
  let output_path := joinname dir
        (output_filename file_path timestamp selected_format ext) in
  process_file (orch i) cfg h file_path output_path selected_format vpy_script_path.

(** [for i, x in enumerate(xs): body], counting from [i]. *)
Fixpoint for_enumerate {A} (i : nat) (xs : list A) (body : nat → A → run event unit)
  : run event unit :=
  match xs with
  | [] => run_ret tt
  | x :: rest => body i x;;; for_enumerate (S i) rest body
  end.

(** The file discovery step of [main]. *)
Definition discover (cfg : config) (h : host) : run event (list path) :=
  if batch_process_directory cfg then
    emit (Log INFO ("Starting batch processing for directory: " +:+
                    input_directory cfg));;;
    let files := find_video_files h (input_directory cfg) (process_subdirectories cfg) in
    (if bool_decide (files = []) then
       emit (Log WARNING "No video files found in the specified directory.")
     else run_ret tt);;;
    run_ret files
  else
    emit (Log INFO ("Starting single file processing for: " +:+ input_file cfg));;;
    let p := Path h (input_file cfg) in
    if is_file h p then run_ret [p]
    else
      emit (Log ERROR ("Input file not found: " +:+ input_file cfg));;;
      sys_exit 1.

Definition output_dir (cfg : config) (h : host) : path :=
  joinname (Path h (output_base_directory cfg)) (now h).

Definition main_on (r : refusals) (orch : orchestrator) (cfg : config) (h : host)
  : run event unit :=
  let timestamp := now h in
  let output_dir := output_dir cfg h in
  mkdir r output_dir;;;
  let log_file := joinname output_dir "process.log" in
  match logging_error r with
  | Some e => raise e
  | None => emit (LoggingSetup (log_level cfg) log_file)
  end;;;
  emit (Log INFO "DitheryDoo processing started.");;;
  emit (Log INFO ("Output directory: " +:+ str (sep h) output_dir));;;
  emit (Log INFO "Validating configuration...");;;
  match get_selected_format cfg with
  | None | Some EmptyString =>
    emit (Log ERROR "Configuration error: Exactly one output format must be enabled.");;;
    sys_exit 1
  | Some selected_format =>
    emit (Log INFO ("Selected output format: " +:+ selected_format));;;
    emit (Log INFO "Checking dependencies (VapourSynth, FFmpeg)...");;;
    ok <- check_dependencies h;;
    if negb ok then sys_exit 1 else
    emit (Log INFO "Dependencies check passed.");;;
    files_to_process <- discover cfg h;;
    let vpy_script_path := joinname (script_dir h) "process.vpy" in
    let total_files := length files_to_process in
    emit (Log INFO ("Found " +:+ pretty total_files +:+ " file(s) to process."));;;
    for_enumerate 0 files_to_process
      (loop_body r orch cfg h timestamp output_dir selected_format
                 vpy_script_path total_files);;;
    emit (Log INFO "DitheryDoo processing finished.")
  end.

(** [main] where nothing is refused. *)
Definition main (orch : orchestrator) (cfg : config) (h : host) : run event unit :=
  main_on no_refusals orch cfg h.

End pipeline.

(** ** A small host, for the examples

    A POSIX machine whose input directory [/in] holds [clip.mov],
    [clip.mkv], [notes.txt] and a directory [sub] with [shot.MP4]; both
    tools are installed. *)

Module sample.
Import pathlib pipeline.

Fixpoint split_slash (s : string) : list string :=
  match s with
  | EmptyString => [""]
  | String c r =>
    if bool_decide (c = "/"%char) then "" :: split_slash r
    else match split_slash r with
         | x :: xs => String c x :: xs
         | [] => [String c ""]
         end
  end.

Definition posix_Path (s : string) : path :=
  {| anchor := if String.prefix "/" s then "/" else "";
     names := filter (λ n, n ≠ "" ∧ n ≠ ".") (split_slash s) |}.

Definition ascii_lower (c : ascii) : ascii :=
  let n := nat_of_ascii c in
  if bool_decide (65 ≤ n ≤ 90)%nat then ascii_of_nat (n + 32) else c.

Fixpoint str_lower (s : string) : string :=
  match s with
  | EmptyString => EmptyString
  | String c r => String (ascii_lower c) (str_lower r)
  end.

Definition input_files : list (list string) :=
  [["in"; "clip.mov"]; ["in"; "clip.mkv"]; ["in"; "notes.txt"];
   ["in"; "sub"; "shot.MP4"]].

Definition posix : host := {|
  Path := posix_Path;
  sep := "/";
  lower := str_lower;
  environ := {[ "PATH" := "/usr/bin" ]};
  now := "2024-01-01_00-00-00";
  run_help := λ _, None;
  glob := λ d pattern,
    if bool_decide (d = posix_Path "/in") then
      if bool_decide (pattern = "*") then
        [["clip.mov"]; ["clip.mkv"]; ["notes.txt"]; ["sub"]]
      else
        [["clip.mov"]; ["clip.mkv"]; ["notes.txt"]; ["sub"]; ["sub"; "shot.MP4"]]
    else [];
  is_file := λ p, bool_decide (anchor p = "/" ∧ names p ∈ input_files);
  script_dir := posix_Path "/opt/ditherydoo"
|}.

(** Batch mode over [/in], FFV1 10-bit selected. *)
Definition batch (recursive : bool) : config := {|
  input_file := "/in/clip.mov";
  input_directory := "/in";
  output_base_directory := "/out";
  batch_process_directory := true;
  process_subdirectories := recursive;
  test_mode := false;
  test_frames := 200;
  enable_prores_422_hq_10bit := false;
  enable_prores_444_16bit := false;
  enable_ffv1_10bit_422 := true;
  enable_ffv1_12bit_444 := false;
  use_nvidia_gpu := true;
  dithering_algorithm := "floyd_steinberg";
  enable_debanding := true;
  debanding_strength := "maximum";
  log_level := "INFO"
|}.

(** Single-file mode on [/in/clip.mov], with the four format switches given. *)
Definition single (f1 f2 f3 f4 : bool) : config := {|
  input_file := "/in/clip.mov";
  input_directory := "/in";
  output_base_directory := "/out";
  batch_process_directory := false;
  process_subdirectories := false;
  test_mode := true;
  test_frames := 200;
  enable_prores_422_hq_10bit := f1;
  enable_prores_444_16bit := f2;
  enable_ffv1_10bit_422 := f3;
  enable_ffv1_12bit_444 := f4;
  use_nvidia_gpu := true;
  dithering_algorithm := "floyd_steinberg";
  enable_debanding := true;
  debanding_strength := "maximum";
  log_level := "INFO"
|}.

(** The catalog entry of the FFV1 10-bit format. *)
Definition ffv1_10bit_422 : ffmpeg_encode.encoding_profile := {|
  ffmpeg_encode.codec := Some "ffv1";
  ffmpeg_encode.profile := None;
  ffmpeg_encode.level := Some "3";
  ffmpeg_encode.pix_fmt := Some "yuv422p10le";
  ffmpeg_encode.extra_args := Some ["-coder"; "1"; "-context"; "1"; "-g"; "1"]
|}.

(** An encoder run that ends with the given code and error output. *)
Definition encoder_ends (returncode : Z) (stderr : list byte) (vspipe_code : Z)
  : ffmpeg_encode.job_world := {|
  ffmpeg_encode.vspipe_popen := None;
  ffmpeg_encode.ffmpeg_popen := None;
  ffmpeg_encode.ffmpeg_communicate := inr ([], stderr, returncode);
  ffmpeg_encode.vspipe_returncode := vspipe_code
|}.

(** An orchestrator that succeeds on every call but the second, where it
    raises. *)
Definition fails_on_second : orchestrator :=
  λ k _ _ _ _ _,
    if bool_decide (k = 1) then raise (OtherException "mock") else run_ret true.

End sample.

(** ** What is observed of a run *)

Module observe.
Import pathlib ffmpeg_encode pipeline.

(** The processes a call of [encode_video] tried to start, in order. *)
Definition popens (t : list io_event)
  : list (list string * option (gmap string string)) :=
  omap (λ e, match e with Popen cmd env => Some (cmd, env) | _ => None end) t.

(** What a call of [encode_video] wrote on the error stream, in order. *)
Definition is_diagnostic (e : io_event) : bool :=
  match e with Stderr _ | StderrExn _ _ => true | _ => false end.

Definition diagnostics (t : list io_event) : list io_event :=
  filter (λ e, is_diagnostic e = true) t.

(** How often [flag] stands in an argument list. *)
Definition occurrences (flag : string) (args : list string) : nat :=
  length (filter (λ a, a = flag) args).

(** The same world, but for the exit status of the frame source. *)
Definition with_vspipe_returncode (w : job_world) (code : Z) : job_world :=
  {| vspipe_popen := vspipe_popen w;
     ffmpeg_popen := ffmpeg_popen w;
     ffmpeg_communicate := ffmpeg_communicate w;
     vspipe_returncode := code |}.

(** The output path the loop of [main] computes for [file_path], when the
    two steps that can raise do not. *)
Definition planned_output (cfg : config) (h : host) (selected_format : string)
    (file_path : path) : option path :=
  match result (output_file_dir cfg h (output_dir cfg h) file_path),
        result (file_ext selected_format) with
  | Returned dir, Returned ext =>
    Some (joinname dir (output_filename file_path (now h) selected_format ext))
  | _, _ => None
  end.

(** The directories [main] made, in order. *)
Definition mkdirs (t : list event) : list path :=
  omap (λ e, match e with Mkdir p => Some p | _ => None end) t.

(** The calls of the orchestrator: the input and output paths passed. *)
Definition encodes (t : list event) : list (string * string) :=
  omap (λ e, match e with
             | Encode i o _ _ _ _ _ => Some (i, o)
             | _ => None
             end) t.

(** The external commands [main] ran itself. *)
Definition probes (t : list event) : list string :=
  omap (λ e, match e with RunHelp c => Some c | _ => None end) t.

(** How many of the four format switches are on. *)
Definition enabled_count (cfg : config) : nat :=
  length (filter (λ b, b = true)
            [enable_prores_422_hq_10bit cfg; enable_prores_444_16bit cfg;
             enable_ffv1_10bit_422 cfg; enable_ffv1_12bit_444 cfg]).

(** The line [process_file] logs for the way a call ended. *)
Definition outcome_record (h : host) (input_path output_path : path)
    (r : outcome bool) : list event :=
  match r with
  | Returned true =>
    [Log INFO ("Successfully processed and saved to " +:+ str (sep h) output_path)]
  | Returned false =>
    [Log ERROR ("Failed to process file: " +:+ str (sep h) input_path)]
  | Raised e =>
    [LogExn ERROR ("An unexpected error occurred while processing "
                   +:+ str (sep h) input_path +:+ ": ") e]
  | Exited _ => []
  end.

(** The environment [process_file] hands to the frame source. *)
Definition job_env (cfg : config) (h : host) (selected_format : string)
    (input_path : path) : gmap string string :=
  <["VS_DEBAND_STRENGTH" := debanding_strength cfg]>
  (<["VS_ENABLE_DEBANDING" := str_bool (enable_debanding cfg)]>
  (<["VS_TEST_FRAMES" := if test_mode cfg then pretty (test_frames cfg) else "0"]>
  (<["VS_DITHER_MODE" := dithering_algorithm cfg]>
  (<["VS_USE_GPU" := str_bool (use_nvidia_gpu cfg)]>
  (<["VS_TARGET_FORMAT" := selected_format]>
  (<["VS_INPUT_PATH" := str (sep h) input_path]> (environ h))))))).

(** Everything the [i]-th turn of the loop leaves in the trace, for a file
    that has an output path. *)
Definition job_trace (orch : orchestrator) (cfg : config) (h : host)
    (selected_format : string) (total_files : nat)
    (i : nat) (file_path : path) : list event :=
  match planned_output cfg h selected_format file_path with
  | None => []
  | Some output_path =>
    let input := str (sep h) file_path in
    let output := str (sep h) output_path in
    let vpy := str (sep h) (joinname (script_dir h) "process.vpy") in
    let env := job_env cfg h selected_format file_path in
    let call := orch i input output selected_format vpy env in
    [Log INFO ("--- Processing file " +:+ pretty (i + 1) +:+ "/" +:+
               pretty total_files +:+ " ---");
     Mkdir (parent output_path);
     Log INFO ("Processing file: " +:+ input);
     Encode input output selected_format vpy env (trace call) (result call)]
    ++ outcome_record h file_path output_path (result call)
  end.

(** What [main] leaves in the trace when it stops at the validation. *)
Definition validation_failure (cfg : config) (h : host) : list event :=
  [Mkdir (output_dir cfg h);
   LoggingSetup (log_level cfg) (joinname (output_dir cfg h) "process.log");
   Log INFO "DitheryDoo processing started.";
   Log INFO ("Output directory: " +:+ str (sep h) (output_dir cfg h));
   Log INFO "Validating configuration...";
   Log ERROR "Configuration error: Exactly one output format must be enabled."].

End observe.

(** ** ffmpeg_encode.py run as a script *)

Module ffmpeg_encode_script.
Import ffmpeg_encode.

(** The [if __name__ == '__main__'] block.  [sys.argv] is the script name
    followed by [args]; [len(sys.argv) != 5] is any number of arguments
    but four. *)
Definition script_main (script : string) (args : list string)
    (os_environ : gmap string string) (w : job_world) : run io_event unit :=
  match args with
  | [arg1; arg2; arg3; arg4] =>
    let test_env := os_environ in
    let test_env := <["VS_INPUT_PATH" := arg1]> test_env in
    let test_env := <["VS_TARGET_FORMAT" := arg3]> test_env in
    success <- encode_video w arg1 arg2 arg3 arg4 test_env;;
    sys_exit (if success : bool then 0 else 1)
  | _ =>
    emit (Stdout ("Usage: " +:+ script +:+
                  " <input_path> <output_path> <format_name> <vpy_script>"));;;
    sys_exit 1
  end.

End ffmpeg_encode_script.

(** ** More of what is observed of a run *)

Module observe_more.
Import pathlib ffmpeg_encode pipeline.

(** The exit code of the encoder, when [encode_video] gets to see one:
    both processes started and [communicate] returned. *)
Definition encoder_exit_code (w : job_world) : option Z :=
  match vspipe_popen w, ffmpeg_popen w, ffmpeg_communicate w with
  | None, None, inr (_, _, returncode) => Some returncode
  | _, _, _ => None
  end.

(** The first exception of the [try] block that comes from the outside:
    starting the frame source, starting the encoder, waiting for it. *)
Definition first_failure (w : job_world) : option exn :=
  match vspipe_popen w with
  | Some e => Some e
  | None =>
    match ffmpeg_popen w with
    | Some e => Some e
    | None =>
      match ffmpeg_communicate w with
      | inl e => Some e
      | inr _ => None
      end
    end
  end.

(** The lines the error stream gets for an exception of the [try] block. *)
Definition failure_report (e : exn) : list io_event :=
  match e with
  | FileNotFoundError _ =>
    [Stderr "Error: Command not found. Is FFmpeg or VapourSynth in your system's PATH?";
     StderrExn "" e]
  | _ => [StderrExn "An unexpected error occurred: " e]
  end.

(** Whether [communicate] was called. *)
Definition waited (t : list io_event) : bool :=
  existsb (λ e, match e with Communicate => true | _ => false end) t.

(** Bytes below 128. *)
Definition is_ascii (bs : list byte) : bool :=
  forallb (λ b, (Byte.to_N b <? 128)%N) bs.

(** The environment and the process events of each orchestrator call. *)
Definition encode_calls (t : list event)
  : list (gmap string string * list io_event) :=
  omap (λ e, match e with
             | Encode _ _ _ _ env io _ => Some (env, io)
             | _ => None
             end) t.

(** The names of the variables [process_file] sets. *)
Definition job_variables : list string :=
  ["VS_INPUT_PATH"; "VS_TARGET_FORMAT"; "VS_USE_GPU"; "VS_DITHER_MODE";
   "VS_TEST_FRAMES"; "VS_ENABLE_DEBANDING"; "VS_DEBAND_STRENGTH"].

(** What [main] leaves in the trace up to the dependency check. *)
Definition before_dependency_check (cfg : config) (h : host)
    (selected_format : string) : list event :=
  [Mkdir (output_dir cfg h);
   LoggingSetup (log_level cfg) (joinname (output_dir cfg h) "process.log");
   Log INFO "DitheryDoo processing started.";
   Log INFO ("Output directory: " +:+ str (sep h) (output_dir cfg h));
   Log INFO "Validating configuration...";
   Log INFO ("Selected output format: " +:+ selected_format);
   Log INFO "Checking dependencies (VapourSynth, FFmpeg)..."].

(** What the dependency check leaves in the trace when it passes. *)
Definition dependency_check_passed : list event :=
  [RunHelp "ffmpeg"; RunHelp "vspipe"; Log INFO "Dependencies check passed."].

(** A run that gets to its jobs and through them: no call of the
    orchestrator leaves through [sys.exit], one format is selected, the
    output directory and the logging are set up, both tools could be run,
    the discovery returns [files], and the directory of no job is refused. *)
Definition reaches_every_job (r : refusals) (orch : orchestrator)
    (cfg : config) (h : host) (selected_format : string) (files : list path)
  : Prop :=
  (∀ k a b c d e code, result (orch k a b c d e) ≠ Exited code) ∧
  get_selected_format cfg = Some selected_format ∧
  mkdir_error r (output_dir cfg h) = None ∧
  logging_error r = None ∧
  result (check_dependencies h) = Returned true ∧
  result (discover cfg h) = Returned files ∧
  Forall (λ f, ∀ out, observe.planned_output cfg h selected_format f = Some out →
                      mkdir_error r (parent out) = None) files.

(** The input and output path a job hands to the orchestrator. *)
Definition job_call (cfg : config) (h : host) (selected_format : string)
    (file_path : path) : option (string * string) :=
  out ← observe.planned_output cfg h selected_format file_path;
  Some (str (sep h) file_path, str (sep h) out).


(** The standard output takes the two lines [encode_video] prints before
    it starts anything. *)
Definition announced (input_path output_path format_name vpy_script : string)
  : list string :=
  match ENCODING_PROFILES !! format_name with
  | Some p =>
    match ffmpeg_cmd p input_path output_path with
    | Some cmd =>
      ["VSPipe command: " +:+ String.concat " " (vspipe_cmd vpy_script);
       "FFmpeg command: " +:+ String.concat " " cmd]
    | None => []
    end
  | None => []
  end.

(** The exception of the first line the standard output refuses. *)
Fixpoint first_refused (stdout_error : string → option exn) (lines : list string)
  : option exn :=
  match lines with
  | [] => None
  | line :: rest =>
    match stdout_error line with
    | Some e => Some e
    | None => first_refused stdout_error rest
    end
  end.

(** The shipped orchestrator on a standard output that may refuse. *)
Definition shipped_orchestrator_on (stdout_error : string → option exn)
    (ws : nat → job_world) : orchestrator :=
  λ k, encode_video_on stdout_error (ws k).

(** The four format switches, in the order of [get_selected_format]. *)
Definition switches (cfg : config) : list bool :=
  [enable_prores_422_hq_10bit cfg; enable_prores_444_16bit cfg;
   enable_ffv1_10bit_422 cfg; enable_ffv1_12bit_444 cfg].

Definition format_names : list string :=
  ["prores_422_hq_10bit"; "prores_444_16bit"; "ffv1_10bit_422"; "ffv1_12bit_444"].

End observe_more.

(** ** More hosts, for the examples *)

Module sample_more.
Import pathlib pipeline.

(** The sample host, with another answer to [subprocess.run]. *)
Definition with_run_help (answer : string → option exn) : host := {|
  Path := Path sample.posix;
  sep := sep sample.posix;
  lower := lower sample.posix;
  environ := environ sample.posix;
  now := now sample.posix;
  run_help := answer;
  glob := glob sample.posix;
  is_file := is_file sample.posix;
  script_dir := script_dir sample.posix
|}.

(** [ffmpeg] is not installed. *)
Definition without_ffmpeg : host :=
  with_run_help (λ cmd, if bool_decide (cmd = "ffmpeg")
                        then Some (FileNotFoundError "ffmpeg") else None).

(** [vspipe] is there but may not be executed. *)
Definition vspipe_forbidden : host :=
  with_run_help (λ cmd, if bool_decide (cmd = "vspipe")
                        then Some (OtherException "Permission denied") else None).

(** Batch mode over a directory that holds no video, FFV1 10-bit selected. *)
Definition batch_over (directory : string) : config := {|
  input_file := input_file (sample.batch false);
  input_directory := directory;
  output_base_directory := output_base_directory (sample.batch false);
  batch_process_directory := true;
  process_subdirectories := false;
  test_mode := false;
  test_frames := 200;
  enable_prores_422_hq_10bit := false;
  enable_prores_444_16bit := false;
  enable_ffv1_10bit_422 := true;
  enable_ffv1_12bit_444 := false;
  use_nvidia_gpu := true;
  dithering_algorithm := "floyd_steinberg";
  enable_debanding := true;
  debanding_strength := "maximum";
  log_level := "INFO"
|}.

(** Single-file mode on a file that is not there, FFV1 10-bit selected. *)
Definition single_on (file : string) : config := {|
  input_file := file;
  input_directory := "/in";
  output_base_directory := "/out";
  batch_process_directory := false;
  process_subdirectories := false;
  test_mode := false;
  test_frames := 200;
  enable_prores_422_hq_10bit := false;
  enable_prores_444_16bit := false;
  enable_ffv1_10bit_422 := true;
  enable_ffv1_12bit_444 := false;
  use_nvidia_gpu := true;
  dithering_algorithm := "floyd_steinberg";
  enable_debanding := true;
  debanding_strength := "maximum";
  log_level := "INFO"
|}.




(** A standard output that cannot encode a line with the byte [0xE9]
    in it ([UnicodeEncodeError]). *)
Definition ascii_stdout (line : string) : option exn :=
  if contains (String (Ascii.ascii_of_nat 233) EmptyString) line
  then Some (OtherException "UnicodeEncodeError") else None.

End sample_more.

(** ** The catalog, entry by entry *)

Lemma catalog_entry fmt p :
  ffmpeg_encode.ENCODING_PROFILES !! fmt = Some p →
  (fmt, p) ∈
    [("prores_422_hq_10bit",
       ffmpeg_encode.Build_encoding_profile (Some "prores_ks") (Some "3") None
         (Some "yuv422p10le") (Some ["-vendor"; "apl0"]));
     ("prores_444_16bit",
       ffmpeg_encode.Build_encoding_profile (Some "prores_ks") (Some "4") None
         (Some "yuv444p16le") (Some ["-vendor"; "apl0"]));
     ("ffv1_10bit_422",
       ffmpeg_encode.Build_encoding_profile (Some "ffv1") None (Some "3")
         (Some "yuv422p10le") (Some ["-coder"; "1"; "-context"; "1"; "-g"; "1"]));
     ("ffv1_12bit_444",
       ffmpeg_encode.Build_encoding_profile (Some "ffv1") None (Some "3")
         (Some "yuv444p12le") (Some ["-coder"; "1"; "-context"; "1"; "-g"; "1"]))].
Proof. intros H. by apply elem_of_list_to_map_2 in H. Qed.

(** Split a goal about a catalog entry into its four cases. *)
Ltac catalog_cases H :=
  let H' := fresh "Hentry" in
  pose proof (catalog_entry _ _ H) as H';
  repeat (apply elem_of_cons in H' as [H'|H']; [inversion H'; subst; clear H'|]);
  [..|by apply elem_of_nil in H'].

(** ** Properties of the command builder and of the orchestrator *)

Section encoder.
Import ffmpeg_encode observe.

Lemma catalog_not_empty fmt p :
  ENCODING_PROFILES !! fmt = Some p → is_empty_profile p = false.
Proof. intros H. catalog_cases H; reflexivity. Qed.

Lemma catalog_builds fmt p input_path output_path :
  ENCODING_PROFILES !! fmt = Some p →
  is_Some (ffmpeg_cmd p input_path output_path).
Proof. intros H. catalog_cases H; eexists; reflexivity. Qed.

(** With the profile found and the command built, [encode_video] prints the
    two commands and enters the [try] block. *)
Lemma encode_video_found w input_path output_path fmt vpy_script env p cmd :
  ENCODING_PROFILES !! fmt = Some p →
  ffmpeg_cmd p input_path output_path = Some cmd →
  encode_video w input_path output_path fmt vpy_script env =
    (emit (Stdout ("VSPipe command: " +:+ String.concat " " (vspipe_cmd vpy_script)));;;
     emit (Stdout ("FFmpeg command: " +:+ String.concat " " cmd));;;
     try_except (run_pipeline w (vspipe_cmd vpy_script) cmd env) handle).
Proof.
  intros Hp Hc. unfold encode_video, encode_video_on.
  rewrite Hp, (catalog_not_empty _ _ Hp), Hc. reflexivity.
Qed.

(** Both [except] clauses print and return [False]. *)
Lemma handle_returns_false e :
  ∃ t, handle e = (Returned false, t) ∧ popens t = [] ∧ diagnostics t = t ∧ t ≠ [].
Proof. destruct e; eexists; (split; [reflexivity|]); done. Qed.

(** The [try] block with both processes started and the encoder ended. *)
Lemma run_pipeline_ended w vcmd fcmd env out err rc :
  vspipe_popen w = None → ffmpeg_popen w = None →
  ffmpeg_communicate w = inr (out, err, rc) →
  try_except (run_pipeline w vcmd fcmd env) handle =
    (Returned (bool_decide (rc = 0%Z)),
     [Popen vcmd (Some env); Popen fcmd None; ClosePipe; Communicate] ++
     if bool_decide (rc = 0%Z) then []
     else Stderr "Error during FFmpeg execution:" ::
          match decode_utf8 err with
          | Some text => [Stderr text]
          | None => [StderrExn "An unexpected error occurred: " UnicodeDecodeError]
          end).
Proof.
  intros Hv Hf Hc. unfold run_pipeline. rewrite Hv, Hf, Hc.
  destruct (decide (rc = 0%Z)) as [->|Hrc].
  - reflexivity.
  - rewrite (bool_decide_eq_true_2 (rc ≠ 0%Z)), (bool_decide_eq_false_2 (rc = 0%Z)) by done.
    destruct (decode_utf8 err); reflexivity.
Qed.

(** C1. For every profile of the catalog and all paths, the encoder command
    is [ffmpeg] followed by: the pipe as first input, the original file as
    second input, video mapped from input 0, audio and then subtitles mapped
    from input 1 with the optional marker, the codec, the pixel format, the
    profile-index flag when the profile has one, the level flag when it has
    one, the extra arguments as they stand in the catalog, audio copy,
    subtitle copy, the overwrite flag and the destination; and this is the
    command [encode_video] starts the encoder with. *)
Theorem encoder_arguments_in_order fmt p input_path output_path vpy_script env w :
  ENCODING_PROFILES !! fmt = Some p →
  ∃ c f,
    codec p = Some c ∧ pix_fmt p = Some f ∧
    let args :=
      ["-i"; "pipe:0"] ++ ["-i"; input_path] ++
      ["-map"; "0:v"] ++ ["-map"; "1:a?"] ++ ["-map"; "1:s?"] ++
      ["-c:v"; c] ++ ["-pix_fmt"; f] ++
      (if profile p is Some x then ["-profile:v"; x] else []) ++
      (if level p is Some x then ["-level:v"; x] else []) ++
      default [] (extra_args p) ++
      ["-c:a"; "copy"] ++ ["-c:s"; "copy"] ++ ["-y"] ++ [output_path] in
    ffmpeg_cmd p input_path output_path = Some ("ffmpeg" :: args) ∧
    (vspipe_popen w = None →
     popens (trace (encode_video w input_path output_path fmt vpy_script env)) =
       [(vspipe_cmd vpy_script, Some env); ("ffmpeg" :: args, None)]).
Proof.
  intros Hp.
  assert (∃ c f, codec p = Some c ∧ pix_fmt p = Some f) as (c & f & Hc & Hf)
    by (catalog_cases Hp; eauto).
  exists c, f. split; [done|]. split; [done|]. cbv zeta.
  assert (Hcmd : ffmpeg_cmd p input_path output_path = Some ("ffmpeg" ::
      ["-i"; "pipe:0"] ++ ["-i"; input_path] ++
      ["-map"; "0:v"] ++ ["-map"; "1:a?"] ++ ["-map"; "1:s?"] ++
      ["-c:v"; c] ++ ["-pix_fmt"; f] ++
      (if profile p is Some x then ["-profile:v"; x] else []) ++
      (if level p is Some x then ["-level:v"; x] else []) ++
      default [] (extra_args p) ++
      ["-c:a"; "copy"] ++ ["-c:s"; "copy"] ++ ["-y"] ++ [output_path])).
  { unfold ffmpeg_cmd, extend. rewrite Hc, Hf.
    destruct (profile p), (level p); simpl; rewrite <- ?app_assoc; reflexivity. }
  split; [exact Hcmd|]. intros Hv.
  rewrite (encode_video_found _ _ _ _ _ _ _ _ Hp Hcmd).
  unfold run_pipeline. rewrite Hv.
  destruct (ffmpeg_popen w) as [[]|]; try reflexivity.
  destruct (ffmpeg_communicate w) as [[]|[[out err] rc]]; try reflexivity.
  case_bool_decide; [|reflexivity].
  destruct (decode_utf8 err); reflexivity.
Qed.

Lemma encoder_arguments_in_order_witness :
  ENCODING_PROFILES !! "ffv1_10bit_422" = Some sample.ffv1_10bit_422 ∧
  ffmpeg_cmd sample.ffv1_10bit_422 "in.mkv" "out.mkv" =
    Some ["ffmpeg"; "-i"; "pipe:0"; "-i"; "in.mkv"; "-map"; "0:v";
          "-map"; "1:a?"; "-map"; "1:s?"; "-c:v"; "ffv1";
          "-pix_fmt"; "yuv422p10le"; "-level:v"; "3";
          "-coder"; "1"; "-context"; "1"; "-g"; "1";
          "-c:a"; "copy"; "-c:s"; "copy"; "-y"; "out.mkv"].
Proof.
  split; [vm_compute; reflexivity|].
  destruct (encoder_arguments_in_order "ffv1_10bit_422" sample.ffv1_10bit_422
              "in.mkv" "out.mkv" "process.vpy" ∅ (sample.encoder_ends 0 [] 0))
    as (c & f & Hc & Hf & Hcmd & _); [vm_compute; reflexivity|].
  injection Hc as <-. injection Hf as <-. exact Hcmd.
Defined.

Lemma occurrences_cons flag a l :
  occurrences flag (a :: l) = occurrences flag [a] + occurrences flag l.
Proof. unfold occurrences. rewrite !filter_cons. simpl. case_decide; reflexivity. Qed.

(** Count a flag in a command whose only unknown words are the two paths. *)
Ltac count_flags input_path output_path :=
  rewrite !(occurrences_cons _ _ (_ :: _));
  generalize (occurrences "-profile:v" [input_path])
             (occurrences "-profile:v" [output_path])
             (occurrences "-level:v" [input_path])
             (occurrences "-level:v" [output_path]);
  intros; simpl; lia.

(** C5. For every entry of the catalog the command carries exactly one of
    [-profile:v] and [-level:v], once: beyond that one occurrence the two
    words stand in the command only where the caller's own input or output
    path is spelled that way.  An entry without a profile index has the level
    flag directly after the pixel format: the profile-index flag is left
    out, with nothing in its place. *)
Theorem one_of_profile_or_level_flag fmt p input_path output_path :
  ENCODING_PROFILES !! fmt = Some p →
  ∃ cmd, ffmpeg_cmd p input_path output_path = Some cmd ∧
    let paths := [input_path; output_path] in
    ((occurrences "-profile:v" cmd = 1 + occurrences "-profile:v" paths ∧
      occurrences "-level:v" cmd = occurrences "-level:v" paths) ∨
     (occurrences "-profile:v" cmd = occurrences "-profile:v" paths ∧
      occurrences "-level:v" cmd = 1 + occurrences "-level:v" paths)) ∧
    (profile p = None →
     occurrences "-profile:v" cmd = occurrences "-profile:v" paths ∧
     ∃ c f lv,
       cmd = ["ffmpeg"; "-i"; "pipe:0"; "-i"; input_path; "-map"; "0:v";
              "-map"; "1:a?"; "-map"; "1:s?"; "-c:v"; c; "-pix_fmt"; f;
              "-level:v"; lv] ++ default [] (extra_args p) ++
             ["-c:a"; "copy"; "-c:s"; "copy"; "-y"; output_path]).
Proof.
  intros Hp. catalog_cases Hp; (eexists; split; [vm_compute; reflexivity|]); cbv zeta.
  - split; [left; split; count_flags input_path output_path | discriminate].
  - split; [left; split; count_flags input_path output_path | discriminate].
  - split; [right; split; count_flags input_path output_path|].
    intros _. split; [count_flags input_path output_path|].
    eexists _, _, _; reflexivity.
  - split; [right; split; count_flags input_path output_path|].
    intros _. split; [count_flags input_path output_path|].
    eexists _, _, _; reflexivity.
Qed.

Lemma one_of_profile_or_level_flag_witness :
  ENCODING_PROFILES !! "ffv1_10bit_422" = Some sample.ffv1_10bit_422 ∧
  ∃ cmd, ffmpeg_cmd sample.ffv1_10bit_422 "in.mkv" "out.mkv" = Some cmd ∧
    occurrences "-profile:v" cmd = 0 ∧ occurrences "-level:v" cmd = 1.
Proof.
  split; [vm_compute; reflexivity|].
  destruct (one_of_profile_or_level_flag "ffv1_10bit_422" sample.ffv1_10bit_422
              "in.mkv" "out.mkv") as (cmd & Hcmd & Hcount & _);
    [vm_compute; reflexivity|].
  exists cmd. split; [exact Hcmd|].
  injection Hcmd as <-. vm_compute. split; reflexivity.
Defined.

(** [encode_video] never looks at the exit status of the frame source. *)
Lemma vspipe_status_unread w code input_path output_path fmt vpy_script env :
  encode_video (with_vspipe_returncode w code)
    input_path output_path fmt vpy_script env =
  encode_video w input_path output_path fmt vpy_script env.
Proof. reflexivity. Qed.

(** C2. When the profile is found, both processes start and the encoder
    ends with code [rc], [encode_video] returns [True] exactly when [rc] is
    zero and [False] otherwise; the exit status of the frame source changes
    neither the result nor anything else the call does. *)
Theorem success_iff_encoder_exit_zero
    w fmt p input_path output_path vpy_script env out err rc :
  ENCODING_PROFILES !! fmt = Some p →
  vspipe_popen w = None →
  ffmpeg_popen w = None →
  ffmpeg_communicate w = inr (out, err, rc) →
  (result (encode_video w input_path output_path fmt vpy_script env) = Returned true
     ↔ rc = 0%Z) ∧
  (result (encode_video w input_path output_path fmt vpy_script env) = Returned false
     ↔ rc ≠ 0%Z) ∧
  ∀ code,
    encode_video (with_vspipe_returncode w code)
      input_path output_path fmt vpy_script env =
    encode_video w input_path output_path fmt vpy_script env.
Proof.
  intros Hp Hv Hf Hc.
  cut ((result (encode_video w input_path output_path fmt vpy_script env)
          = Returned true ↔ rc = 0%Z) ∧
       (result (encode_video w input_path output_path fmt vpy_script env)
          = Returned false ↔ rc ≠ 0%Z)).
  { intros [H1 H2]. split; [exact H1|]. split; [exact H2|].
    intros code. apply vspipe_status_unread. }
  destruct (catalog_builds _ _ input_path output_path Hp) as [cmd Hcmd].
  rewrite (encode_video_found _ _ _ _ _ _ _ _ Hp Hcmd).
  rewrite (run_pipeline_ended _ _ _ _ _ _ _ Hv Hf Hc).
  unfold result. simpl.
  repeat split.
  - intros [= H]. by apply bool_decide_eq_true in H.
  - intros ->. reflexivity.
  - intros [= H]. by apply bool_decide_eq_false in H.
  - intros H. by rewrite bool_decide_eq_false_2.
Qed.

Lemma success_iff_encoder_exit_zero_witness :
  ENCODING_PROFILES !! "ffv1_10bit_422" = Some sample.ffv1_10bit_422 ∧
  vspipe_popen (sample.encoder_ends 0 [] 1) = None ∧
  ffmpeg_popen (sample.encoder_ends 0 [] 1) = None ∧
  ffmpeg_communicate (sample.encoder_ends 0 [] 1) = inr ([], [], 0%Z) ∧
  result (encode_video (sample.encoder_ends 0 [] 1)
            "in.mkv" "out.mkv" "ffv1_10bit_422" "process.vpy" ∅) = Returned true.
Proof.
  split; [vm_compute; reflexivity|]. do 3 (split; [reflexivity|]).
  apply (success_iff_encoder_exit_zero (sample.encoder_ends 0 [] 1)
           "ffv1_10bit_422" sample.ffv1_10bit_422 "in.mkv" "out.mkv"
           "process.vpy" ∅ [] [] 0%Z);
    [vm_compute; reflexivity|reflexivity..].
Defined.

(** A successful call writes nothing on the error stream. *)
Lemma success_has_no_diagnostic w input_path output_path fmt vpy_script env :
  result (encode_video w input_path output_path fmt vpy_script env) = Returned true →
  diagnostics (trace (encode_video w input_path output_path fmt vpy_script env)) = [].
Proof.
  unfold encode_video, encode_video_on.
  destruct (ENCODING_PROFILES !! fmt) as [p|]; [|discriminate].
  destruct (is_empty_profile p); [discriminate|].
  destruct (ffmpeg_cmd p input_path output_path) as [cmd|]; [|discriminate].
  unfold run_pipeline.
  destruct (vspipe_popen w) as [[]|]; try discriminate.
  destruct (ffmpeg_popen w) as [[]|]; try discriminate.
  destruct (ffmpeg_communicate w) as [[]|[[out err] rc]]; try discriminate.
  case_bool_decide; [|reflexivity].
  destruct (decode_utf8 err); discriminate.
Qed.

(** C3 does not hold of the code.  An encoder that ends with code 1 after
    writing the single byte [0xFF] on its error stream: [encode_video]
    decodes the captured output strictly, the byte is not UTF-8, the
    decoding raises inside the [try] block and the general [except] clause
    takes over.  What reaches the error stream is the heading and the text
    of the decoding exception; the output of the encoder is lost. *)
Theorem undecodable_stderr_is_not_reported :
  let run := encode_video (sample.encoder_ends 1 [xff] 0)
               "in.mkv" "out.mkv" "ffv1_10bit_422" "process.vpy" ∅ in
  decode_utf8 [xff] = None ∧
  result run = Returned false ∧
  diagnostics (trace run) =
    [Stderr "Error during FFmpeg execution:";
     StderrExn "An unexpected error occurred: " UnicodeDecodeError].
Proof. vm_compute. repeat split; reflexivity. Qed.

(** X23. When the encoder ends with a non-zero code, [encode_video] returns
    [False] whatever the encoder wrote, and the error stream gets the
    heading line followed by the captured error output decoded to text
    when that output is UTF-8, and by the report of the decoding error when
    it is not; a call that returns [True] has written nothing on the error
    stream. *)
Theorem encoder_failure_is_reported
    w fmt p input_path output_path vpy_script env out err rc :
  ENCODING_PROFILES !! fmt = Some p →
  vspipe_popen w = None →
  ffmpeg_popen w = None →
  ffmpeg_communicate w = inr (out, err, rc) →
  rc ≠ 0%Z →
  result (encode_video w input_path output_path fmt vpy_script env) = Returned false ∧
  diagnostics (trace (encode_video w input_path output_path fmt vpy_script env)) =
    [Stderr "Error during FFmpeg execution:";
     match decode_utf8 err with
     | Some text => Stderr text
     | None => StderrExn "An unexpected error occurred: " UnicodeDecodeError
     end] ∧
  ∀ w',
    result (encode_video w' input_path output_path fmt vpy_script env) = Returned true →
    diagnostics (trace (encode_video w' input_path output_path fmt vpy_script env)) = [].
Proof.
  intros Hp Hv Hf Hc Hrc.
  split; [|split; [|intros w'; apply success_has_no_diagnostic]].
  all: destruct (catalog_builds _ _ input_path output_path Hp) as [cmd Hcmd].
  all: rewrite (encode_video_found _ _ _ _ _ _ _ _ Hp Hcmd).
  all: rewrite (run_pipeline_ended _ _ _ _ _ _ _ Hv Hf Hc).
  all: rewrite bool_decide_eq_false_2 by done.
  all: destruct (decode_utf8 err); reflexivity.
Qed.

Lemma encoder_failure_is_reported_witness :
  ENCODING_PROFILES !! "ffv1_10bit_422" = Some sample.ffv1_10bit_422 ∧
  diagnostics (trace (encode_video (sample.encoder_ends 1 [x62; x6f; x6f; x6d] 0)
                        "in.mkv" "out.mkv" "ffv1_10bit_422" "process.vpy" ∅)) =
    [Stderr "Error during FFmpeg execution:"; Stderr "boom"].
Proof.
  split; [vm_compute; reflexivity|].
  apply (encoder_failure_is_reported
           (sample.encoder_ends 1 [x62; x6f; x6f; x6d] 0)
           "ffv1_10bit_422" sample.ffv1_10bit_422 "in.mkv" "out.mkv"
           "process.vpy" ∅ [] [x62; x6f; x6f; x6d] 1%Z);
    [vm_compute; reflexivity|reflexivity|reflexivity|reflexivity|discriminate].
Defined.

(** C9. A format name that is not a key of the catalog: [encode_video]
    prints one line on the error stream and returns [False]; it raises
    nothing and starts no process, whatever the world would have answered.
    In the controller the failure ends that job only: [process_file]
    returns normally. *)
Theorem unknown_format_fails_without_spawning
    w input_path output_path fmt vpy_script env cfg h ip op vp :
  ENCODING_PROFILES !! fmt = None →
  encode_video w input_path output_path fmt vpy_script env =
    (Returned false,
     [Stderr ("Error: Encoding profile for '" +:+ fmt +:+ "' not found.")]) ∧
  popens (trace (encode_video w input_path output_path fmt vpy_script env)) = [] ∧
  result (pipeline.process_file (encode_video w) cfg h ip op fmt vp) = Returned tt.
Proof.
  intros Hp. unfold pipeline.process_file, encode_video, encode_video_on.
  rewrite Hp.
  repeat split; reflexivity.
Qed.

Lemma unknown_format_fails_without_spawning_witness :
  ENCODING_PROFILES !! "h264" = None ∧
  encode_video (sample.encoder_ends 0 [] 0) "in.mkv" "out.mp4" "h264" "process.vpy" ∅ =
    (Returned false, [Stderr "Error: Encoding profile for 'h264' not found."]).
Proof.
  split; [vm_compute; reflexivity|].
  apply (unknown_format_fails_without_spawning (sample.encoder_ends 0 [] 0)
           "in.mkv" "out.mp4" "h264" "process.vpy" ∅ pipeline.shipped sample.posix
           (pathlib.Build_path "" []) (pathlib.Build_path "" [])
           (pathlib.Build_path "" [])).
  vm_compute; reflexivity.
Defined.

End encoder.

(** ** Properties of paths and names *)

Section paths.
Import pathlib.

Lemma strip_prefix_app pre rest : strip_prefix pre (pre ++ rest) = Some rest.
Proof.
  induction pre as [|x pre IH]; simpl; [reflexivity|].
  by rewrite bool_decide_eq_true_2.
Qed.

Lemma parent_joinname dir n : parent (joinname dir n) = dir.
Proof. destruct dir as [a ns]. unfold parent, joinname. simpl. by rewrite removelast_last. Qed.

Lemma name_joinname dir n : name (joinname dir n) = n.
Proof. unfold name, joinname. simpl. apply last_last. Qed.

Lemma joinname_inj dir1 dir2 n1 n2 :
  joinname dir1 n1 = joinname dir2 n2 → dir1 = dir2 ∧ n1 = n2.
Proof.
  intros H. split.
  - rewrite <- (parent_joinname dir1 n1), <- (parent_joinname dir2 n2). by rewrite H.
  - rewrite <- (name_joinname dir1 n1), <- (name_joinname dir2 n2). by rewrite H.
Qed.

(** Below a directory, [relative_to] gives back the names that were added. *)
Lemma relative_to_below d rel :
  relative_to {| anchor := anchor d; names := names d ++ rel |} d =
    Some {| anchor := ""; names := rel |}.
Proof.
  unfold relative_to. simpl. rewrite bool_decide_eq_true_2 by done.
  by rewrite strip_prefix_app.
Qed.

Lemma joinpath_relative d rel :
  joinpath d {| anchor := ""; names := rel |} =
    {| anchor := anchor d; names := names d ++ rel |}.
Proof. reflexivity. Qed.

Lemma joinpath_relative_inj d rel1 rel2 :
  joinpath d {| anchor := ""; names := rel1 |} =
  joinpath d {| anchor := ""; names := rel2 |} → rel1 = rel2.
Proof. rewrite !joinpath_relative. intros [= H]. by apply app_inv_head in H. Qed.

Lemma string_app_length s t :
  String.length (s +:+ t) = String.length s + String.length t.
Proof. induction s as [|c s IH]; simpl; [done|]. by rewrite IH. Qed.

(** Appending the same text to two strings keeps them apart. *)
Lemma string_app_inv_tail s1 s2 t : s1 +:+ t = s2 +:+ t → s1 = s2.
Proof.
  revert s2. induction s1 as [|c s1 IH]; intros [|c' s2] H; simpl in H.
  - reflexivity.
  - apply (f_equal String.length) in H. simpl in H.
    rewrite !string_app_length in H. simpl in H. lia.
  - apply (f_equal String.length) in H. simpl in H.
    rewrite !string_app_length in H. simpl in H. lia.
  - injection H as -> H. f_equal. by apply IH.
Qed.

End paths.

(** ** Properties of the controller *)

Section controller.
Import pathlib ffmpeg_encode pipeline observe observe_more.

(** The format [get_selected_format] returns is a key of the catalog. *)
Lemma selected_in_catalog cfg fmt :
  get_selected_format cfg = Some fmt →
  fmt ≠ "" ∧ ∃ p, ENCODING_PROFILES !! fmt = Some p.
Proof.
  unfold get_selected_format.
  destruct (enable_prores_422_hq_10bit cfg), (enable_prores_444_16bit cfg),
    (enable_ffv1_10bit_422 cfg), (enable_ffv1_12bit_444 cfg);
    vm_compute; intros [= <-]; (split; [discriminate|]); eexists; reflexivity.
Qed.

(** It returns nothing unless exactly one switch is on. *)
Lemma selected_none_iff cfg :
  get_selected_format cfg = None ↔ enabled_count cfg ≠ 1.
Proof.
  unfold get_selected_format, enabled_count.
  destruct (enable_prores_422_hq_10bit cfg), (enable_prores_444_16bit cfg),
    (enable_ffv1_10bit_422 cfg), (enable_ffv1_12bit_444 cfg);
    vm_compute; split; (discriminate || congruence || lia || done).
Qed.

(** The extension chosen for each format of the catalog. *)
Lemma file_ext_catalog fmt p :
  ENCODING_PROFILES !! fmt = Some p →
  ∃ ext, file_ext fmt = run_ret ext ∧
    ((codec p = Some "prores_ks" ∧ ext = "mov") ∨
     (codec p = Some "ffv1" ∧ ext = "mkv")).
Proof.
  intros Hp. unfold file_ext.
  catalog_cases Hp; rewrite Hp; eexists; (split; [reflexivity|]);
    [left|left|right|right]; done.
Qed.

(** Every file the discovery finds lies below the directory searched. *)
Lemma find_video_files_below h directory recursive file_path :
  file_path ∈ find_video_files h directory recursive →
  ∃ rel, file_path =
    {| anchor := anchor (Path h directory);
       names := names (Path h directory) ++ rel |}.
Proof.
  unfold find_video_files. intros H.
  apply list_elem_of_filter in H as [_ H].
  apply list_elem_of_fmap in H as (rel & -> & _). by exists rel.
Qed.

(** The output path of a file that lies below the input directory, in
    batch mode. *)
Lemma planned_output_batch cfg h fmt p rel :
  batch_process_directory cfg = true →
  ENCODING_PROFILES !! fmt = Some p →
  let d := Path h (input_directory cfg) in
  let file_path := {| anchor := anchor d; names := names d ++ rel |} in
  ∃ ext, file_ext fmt = run_ret ext ∧
    output_file_dir cfg h (output_dir cfg h) file_path =
      run_ret (joinpath (output_dir cfg h)
                 (parent {| anchor := ""; names := rel |})) ∧
    planned_output cfg h fmt file_path =
      Some (joinname (joinpath (output_dir cfg h)
                        (parent {| anchor := ""; names := rel |}))
                     (output_filename file_path (now h) fmt ext)).
Proof.
  intros Hb Hp d file_path.
  destruct (file_ext_catalog _ _ Hp) as (ext & Hext & _).
  exists ext. split; [exact Hext|].
  assert (Hdir : output_file_dir cfg h (output_dir cfg h) file_path =
            run_ret (joinpath (output_dir cfg h)
                       (parent {| anchor := ""; names := rel |}))).
  { unfold output_file_dir. rewrite Hb. unfold file_path.
    by rewrite relative_to_below. }
  split; [exact Hdir|].
  unfold planned_output. by rewrite Hdir, Hext.
Qed.

(** The output path in single-file mode. *)
Lemma planned_output_single cfg h fmt p file_path :
  batch_process_directory cfg = false →
  ENCODING_PROFILES !! fmt = Some p →
  ∃ ext, file_ext fmt = run_ret ext ∧
    planned_output cfg h fmt file_path =
      Some (joinname (output_dir cfg h)
                     (output_filename file_path (now h) fmt ext)).
Proof.
  intros Hb Hp.
  destruct (file_ext_catalog _ _ Hp) as (ext & Hext & _).
  exists ext. split; [exact Hext|].
  unfold planned_output, output_file_dir. by rewrite Hb, Hext.
Qed.



(** C4, as the code has it.  In batch mode two discovered inputs get the
    same output path exactly when they lie in the same directory below the
    input directory and their names have the same stem; inputs with
    different stems, or in different directories, never collide. *)
Theorem outputs_collide_iff_same_directory_and_stem cfg h fmt f1 f2 :
  get_selected_format cfg = Some fmt →
  batch_process_directory cfg = true →
  f1 ∈ find_video_files h (input_directory cfg) (process_subdirectories cfg) →
  f2 ∈ find_video_files h (input_directory cfg) (process_subdirectories cfg) →
  ∃ rel1 rel2 out1 out2,
    relative_to f1 (Path h (input_directory cfg)) = Some rel1 ∧
    relative_to f2 (Path h (input_directory cfg)) = Some rel2 ∧
    planned_output cfg h fmt f1 = Some out1 ∧
    planned_output cfg h fmt f2 = Some out2 ∧
    (out1 = out2 ↔ parent rel1 = parent rel2 ∧ stem f1 = stem f2).
Proof.
  intros Hsel Hb Hin1 Hin2.
  destruct (selected_in_catalog _ _ Hsel) as (_ & p & Hp).
  destruct (find_video_files_below _ _ _ _ Hin1) as [n1 ->].
  destruct (find_video_files_below _ _ _ _ Hin2) as [n2 ->].
  destruct (planned_output_batch cfg h fmt p n1 Hb Hp) as (ext & Hext & _ & Hout1).
  destruct (planned_output_batch cfg h fmt p n2 Hb Hp) as (ext' & Hext' & _ & Hout2).
  rewrite Hext in Hext'. injection Hext' as <-.
  eexists _, _, _, _.
  split; [apply relative_to_below|]. split; [apply relative_to_below|].
  split; [exact Hout1|]. split; [exact Hout2|].
  unfold output_filename. split.
  - intros H. apply joinname_inj in H as [Hdir Hname].
    split.
    + unfold parent in *. simpl in *. f_equal.
      by apply joinpath_relative_inj in Hdir.
    + by apply string_app_inv_tail in Hname.
  - intros [Hdir Hstem]. by rewrite Hdir, Hstem.
Qed.

Lemma outputs_collide_iff_same_directory_and_stem_witness :
  get_selected_format (sample.batch true) = Some "ffv1_10bit_422" ∧
  batch_process_directory (sample.batch true) = true ∧
  {| anchor := "/"; names := ["in"; "clip.mov"] |}
    ∈ find_video_files sample.posix "/in" true ∧
  {| anchor := "/"; names := ["in"; "sub"; "shot.MP4"] |}
    ∈ find_video_files sample.posix "/in" true ∧
  planned_output (sample.batch true) sample.posix "ffv1_10bit_422"
    {| anchor := "/"; names := ["in"; "clip.mov"] |} ≠
  planned_output (sample.batch true) sample.posix "ffv1_10bit_422"
    {| anchor := "/"; names := ["in"; "sub"; "shot.MP4"] |}.
Proof.
  assert (Hin1 : {| anchor := "/"; names := ["in"; "clip.mov"] |}
                   ∈ find_video_files sample.posix "/in" true).
  { vm_compute. apply list_elem_of_here. }
  assert (Hin2 : {| anchor := "/"; names := ["in"; "sub"; "shot.MP4"] |}
                   ∈ find_video_files sample.posix "/in" true).
  { vm_compute. do 2 apply list_elem_of_further. apply list_elem_of_here. }
  split; [vm_compute; reflexivity|]. split; [reflexivity|].
  split; [exact Hin1|]. split; [exact Hin2|].
  destruct (outputs_collide_iff_same_directory_and_stem (sample.batch true)
              sample.posix "ffv1_10bit_422" _ _
              ltac:(vm_compute; reflexivity) eq_refl Hin1 Hin2)
    as (rel1 & rel2 & out1 & out2 & Hrel1 & Hrel2 & -> & -> & Hiff).
  intros [= Heq]. apply Hiff in Heq as [_ Hstem].
  vm_compute in Hstem. discriminate.
Defined.

(** C4 as the specification states it does not hold.  A plain batch run over [/in] finds
    [clip.mov] and [clip.mkv]; both jobs are handed the same output
    path. *)
Lemma same_stem_inputs_share_an_output :
  let f1 := {| anchor := "/"; names := ["in"; "clip.mov"] |} in
  let f2 := {| anchor := "/"; names := ["in"; "clip.mkv"] |} in
  let shared := "/out/2024-01-01_00-00-00/clip_2024-01-01_00-00-00_ffv1_10bit_422.mkv" in
  f1 ≠ f2 ∧
  find_video_files sample.posix "/in" false = [f1; f2] ∧
  planned_output (sample.batch false) sample.posix "ffv1_10bit_422" f1 =
    planned_output (sample.batch false) sample.posix "ffv1_10bit_422" f2 ∧
  encodes (trace (main sample.fails_on_second (sample.batch false) sample.posix)) =
    [("/in/clip.mov", shared); ("/in/clip.mkv", shared)].
Proof. vm_compute. repeat split; (discriminate || reflexivity). Qed.

(** [process_file] returns normally whatever the orchestrator returns or
    raises, and logs how the call ended. *)
Lemma process_file_trace enc cfg h input_path output_path fmt vpy :
  let call := enc (str (sep h) input_path) (str (sep h) output_path) fmt
                  (str (sep h) vpy) (job_env cfg h fmt input_path) in
  (∀ code, result call ≠ Exited code) →
  process_file enc cfg h input_path output_path fmt vpy =
    (Returned tt,
     [Log INFO ("Processing file: " +:+ str (sep h) input_path);
      Encode (str (sep h) input_path) (str (sep h) output_path) fmt
             (str (sep h) vpy) (job_env cfg h fmt input_path)
             (trace call) (result call)]
     ++ outcome_record h input_path output_path (result call)).
Proof.
  intros call Hne. unfold process_file. fold (job_env cfg h fmt input_path).
  fold call. destruct (result call) as [[]|e|code]; try reflexivity.
  by destruct (Hne code).
Qed.

(** One turn of the loop, for a file that has an output path and whose
    directory is not refused. *)
Lemma loop_body_trace r orch cfg h fmt total i file_path out :
  (∀ k a b c d e code, result (orch k a b c d e) ≠ Exited code) →
  planned_output cfg h fmt file_path = Some out →
  mkdir_error r (parent out) = None →
  loop_body r orch cfg h (now h) (output_dir cfg h) fmt
               (joinname (script_dir h) "process.vpy") total i file_path =
    (Returned tt, job_trace orch cfg h fmt total i file_path).
Proof.
  intros Hne Hout Hfree. unfold job_trace. rewrite Hout.
  unfold planned_output in Hout. unfold loop_body.
  assert (Hdir : ∃ dir, output_file_dir cfg h (output_dir cfg h) file_path
                          = run_ret dir).
  { unfold output_file_dir in *. destruct (batch_process_directory cfg).
    - destruct (relative_to _ _); [by eexists|discriminate].
    - by eexists. }
  destruct Hdir as [dir Hdir]. rewrite Hdir in *.
  assert (Hext : ∃ ext, file_ext fmt = run_ret ext).
  { unfold file_ext in *. destruct (ENCODING_PROFILES !! fmt);
      [by eexists|discriminate]. }
  destruct Hext as [ext Hext]. rewrite Hext in *.
  simpl in Hout. injection Hout as <-.
  rewrite parent_joinname in *.
  unfold run_bind, emit, run_ret. cbn beta iota zeta.
  unfold mkdir, emit. rewrite Hfree. cbn beta iota zeta.
  rewrite process_file_trace by (intros code; apply Hne).
  reflexivity.
Qed.

(** A loop whose every turn returns leaves the traces of its turns, in
    order. *)
Lemma for_enumerate_trace {A} (body : nat → A → run event unit)
    (tr : nat → A → list event) (xs : list A) (i : nat) :
  (∀ k x, x ∈ xs → body k x = (Returned tt, tr k x)) →
  for_enumerate i xs body = (Returned tt, mjoin (imap (λ k x, tr (i + k) x) xs)).
Proof.
  revert i. induction xs as [|x xs IH]; intros i Hbody; [reflexivity|].
  simpl. rewrite (Hbody i x) by apply list_elem_of_here.
  rewrite (IH (S i)) by (intros; apply Hbody; by apply list_elem_of_further).
  simpl. rewrite Nat.add_0_r. do 3 f_equal.
  apply imap_ext. intros k y _. simpl. by rewrite Nat.add_succ_r.
Qed.

Lemma encodes_app t1 t2 : encodes (t1 ++ t2) = encodes t1 ++ encodes t2.
Proof. apply omap_app. Qed.

Lemma encodes_outcome_record h ip op r : encodes (outcome_record h ip op r) = [].
Proof. by destruct r as [[]| |]. Qed.

(** The checks pass only after both tools were run. *)
Lemma check_dependencies_passed h :
  result (check_dependencies h) = Returned true →
  check_dependencies h = (Returned true, [RunHelp "ffmpeg"; RunHelp "vspipe"]).
Proof.
  unfold check_dependencies. simpl.
  destruct (run_help h "ffmpeg") as [[]|]; try discriminate.
  destruct (run_help h "vspipe") as [[]|]; try discriminate.
  reflexivity.
Qed.

(** What the discovery returns has an output path, and the discovery
    calls no orchestrator. *)
Lemma discover_returned cfg h fmt p files :
  ENCODING_PROFILES !! fmt = Some p →
  result (discover cfg h) = Returned files →
  encodes (trace (discover cfg h)) = [] ∧
  Forall (λ f, is_Some (planned_output cfg h fmt f)) files.
Proof.
  intros Hp. unfold discover.
  destruct (batch_process_directory cfg) eqn:Hb.
  - case_bool_decide as Hnil; simpl; intros [= <-]; (split; [reflexivity|]).
    + rewrite Hnil. constructor.
    + apply Forall_forall. intros f Hin.
      destruct (find_video_files_below _ _ _ _ Hin) as [rel ->].
      destruct (planned_output_batch cfg h fmt p rel Hb Hp) as (ext & _ & _ & ->).
      by eexists.
  - destruct (is_file h (Path h (input_file cfg))); simpl; [|discriminate].
    intros [= <-]. split; [reflexivity|].
    constructor; [|constructor].
    destruct (planned_output_single cfg h fmt p (Path h (input_file cfg)) Hb Hp)
      as (ext & _ & ->).
    by eexists.
Qed.



(** A run that gets to its jobs and through them: the whole trace. *)
Lemma main_on_runs_every_job r orch cfg h fmt files :
  reaches_every_job r orch cfg h fmt files →
  main_on r orch cfg h =
    (Returned tt,
     before_dependency_check cfg h fmt ++ dependency_check_passed ++
     trace (discover cfg h) ++
     [Log INFO ("Found " +:+ pretty (length files) +:+ " file(s) to process.")] ++
     mjoin (imap (job_trace orch cfg h fmt (length files)) files) ++
     [Log INFO "DitheryDoo processing finished."]).
Proof.
  intros (Hne & Hsel & Hmk & Hlog & Hdeps & Hdisc & Hfree).
  destruct (selected_in_catalog _ _ Hsel) as (Hfmt & p & Hp).
  destruct (discover_returned cfg h fmt p files Hp Hdisc) as [_ Hplanned].
  pose proof (check_dependencies_passed h Hdeps) as Hcheck.
  assert (Hloop :
    for_enumerate 0 files
      (loop_body r orch cfg h (now h) (output_dir cfg h) fmt
         (joinname (script_dir h) "process.vpy") (length files)) =
    (Returned tt, mjoin (imap (job_trace orch cfg h fmt (length files)) files))).
  { apply (for_enumerate_trace _ (job_trace orch cfg h fmt (length files))).
    intros k f Hin.
    destruct (proj1 (Forall_forall _ _) Hplanned f Hin) as [out Hout].
    apply (loop_body_trace _ _ _ _ _ _ _ _ out); [exact Hne|exact Hout|].
    by apply (proj1 (Forall_forall _ _) Hfree f Hin). }
  unfold main_on, mkdir. rewrite Hmk, Hlog, Hsel.
  destruct fmt as [|c fmt]; [done|].
  rewrite Hcheck.
  destruct (discover cfg h) as [r' tdisc]. unfold result, trace in *.
  simpl in Hdisc. subst r'.
  unfold run_bind, emit, run_ret, negb. cbn beta iota zeta.
  rewrite Hloop. cbn beta iota zeta.
  unfold before_dependency_check, dependency_check_passed. simpl.
  rewrite <- ?app_assoc. reflexivity.
Qed.

(** The orchestrator calls of the jobs, one per file that has an output
    path. *)
Lemma encodes_jobs orch cfg h fmt total (g : nat → nat) files :
  encodes (mjoin (imap (λ k, job_trace orch cfg h fmt total (g k)) files)) =
    omap (job_call cfg h fmt) files.
Proof.
  revert g. induction files as [|f fs IH]; intros g; [reflexivity|].
  simpl. rewrite encodes_app. unfold compose. rewrite (IH (λ k, g (S k))).
  unfold job_trace, job_call.
  destruct (planned_output cfg h fmt f) as [out|]; [|reflexivity].
  simpl. by rewrite encodes_outcome_record.
Qed.





(** The orchestrator calls of a run that gets through its jobs. *)
Lemma main_on_encodes r orch cfg h fmt files :
  reaches_every_job r orch cfg h fmt files →
  encodes (trace (main_on r orch cfg h)) = omap (job_call cfg h fmt) files.
Proof.
  intros Hreach. rewrite (main_on_runs_every_job _ _ _ _ _ _ Hreach).
  destruct Hreach as (_ & Hsel & _ & _ & _ & Hdisc & _).
  destruct (selected_in_catalog _ _ Hsel) as (_ & p & Hp).
  destruct (discover_returned cfg h fmt p files Hp Hdisc) as [Hquiet _].
  unfold trace at 1. cbn [snd].
  assert (Hjobs :
    encodes (mjoin (imap (job_trace orch cfg h fmt (length files)) files)) =
      omap (job_call cfg h fmt) files)
    by exact (encodes_jobs orch cfg h fmt (length files) (λ k, k) files).
  rewrite !encodes_app, Hquiet, Hjobs.
  cbn. apply app_nil_r.
Qed.



(** The sample batch gets through its jobs. *)
Lemma sample_batch_reaches_every_job :
  reaches_every_job no_refusals sample.fails_on_second (sample.batch true)
    sample.posix "ffv1_10bit_422"
    [{| anchor := "/"; names := ["in"; "clip.mov"] |};
     {| anchor := "/"; names := ["in"; "clip.mkv"] |};
     {| anchor := "/"; names := ["in"; "sub"; "shot.MP4"] |}].
Proof.
  split.
  { intros k a b c d e code. unfold sample.fails_on_second.
    case_bool_decide; discriminate. }
  do 5 (split; [vm_compute; reflexivity|]).
  apply Forall_forall. intros f _ out _. reflexivity.
Qed.







(** The inputs of the jobs, when every file has an output path. *)
Lemma job_call_inputs cfg h fmt files :
  Forall (λ f, is_Some (planned_output cfg h fmt f)) files →
  (omap (job_call cfg h fmt) files).*1 = str (sep h) <$> files.
Proof.
  induction 1 as [|f fs [out Hout] _ IH]; [reflexivity|].
  replace (omap (job_call cfg h fmt) (f :: fs))
    with ((str (sep h) f, str (sep h) out) :: omap (job_call cfg h fmt) fs)
    by (simpl; unfold job_call at 2; rewrite Hout; reflexivity).
  rewrite !fmap_cons. f_equal. exact IH.
Qed.

(** X22. In a run that gets to its jobs and in which no job directory is
    refused, [main] goes through the discovered files in discovery order
    and returns normally: its trace is what came before the loop, then the
    trace of one job per file, each with its call of the orchestrator and
    the record of how that call ended, then the closing line.  This holds
    whatever the calls return or raise. *)
Theorem every_discovered_file_is_attempted r orch cfg h fmt files :
  reaches_every_job r orch cfg h fmt files →
  main_on r orch cfg h =
    (Returned tt,
     before_dependency_check cfg h fmt ++ dependency_check_passed ++
     trace (discover cfg h) ++
     [Log INFO ("Found " +:+ pretty (length files) +:+ " file(s) to process.")] ++
     mjoin (imap (job_trace orch cfg h fmt (length files)) files) ++
     [Log INFO "DitheryDoo processing finished."]) ∧
  Forall (λ f, is_Some (planned_output cfg h fmt f)) files ∧
  (encodes (trace (main_on r orch cfg h))).*1 = str (sep h) <$> files.
Proof.
  intros Hreach.
  split; [exact (main_on_runs_every_job _ _ _ _ _ _ Hreach)|].
  rewrite (main_on_encodes _ _ _ _ _ _ Hreach).
  destruct Hreach as (_ & Hsel & _ & _ & _ & Hdisc & _).
  destruct (selected_in_catalog _ _ Hsel) as (_ & p & Hp).
  destruct (discover_returned cfg h fmt p files Hp Hdisc) as [_ Hplanned].
  split; [exact Hplanned|]. by apply job_call_inputs.
Qed.

Lemma every_discovered_file_is_attempted_witness :
  reaches_every_job no_refusals sample.fails_on_second (sample.batch true)
    sample.posix "ffv1_10bit_422"
    [{| anchor := "/"; names := ["in"; "clip.mov"] |};
     {| anchor := "/"; names := ["in"; "clip.mkv"] |};
     {| anchor := "/"; names := ["in"; "sub"; "shot.MP4"] |}] ∧
  (encodes (trace (main_on no_refusals sample.fails_on_second (sample.batch true)
                     sample.posix))).*1 =
    ["/in/clip.mov"; "/in/clip.mkv"; "/in/sub/shot.MP4"].
Proof.
  split; [exact sample_batch_reaches_every_job|].
  destruct (every_discovered_file_is_attempted _ _ _ _ _ _
              sample_batch_reaches_every_job) as (_ & _ & ->).
  vm_compute. reflexivity.
Defined.





(** C7, as the code has it.  With no format switch on, or with two or
    more, [main] leaves with code 1 after the validation: no tool has been
    run, no orchestrator called and no directory made for a job.  The
    timestamped output directory of the run has been made by then, and the
    log file opened in it. *)
Theorem bad_selection_aborts_before_jobs orch cfg h :
  enabled_count cfg = 0 ∨ (2 ≤ enabled_count cfg)%nat →
  main orch cfg h = (Exited 1, validation_failure cfg h) ∧
  encodes (trace (main orch cfg h)) = [] ∧
  probes (trace (main orch cfg h)) = [] ∧
  mkdirs (trace (main orch cfg h)) = [output_dir cfg h].
Proof.
  intros Hcount.
  assert (Hsel : get_selected_format cfg = None)
    by (apply selected_none_iff; lia).
  assert (Hmain : main orch cfg h = (Exited 1, validation_failure cfg h))
    by (unfold main, main_on; rewrite Hsel; reflexivity).
  rewrite Hmain. repeat split; reflexivity.
Qed.

Lemma bad_selection_aborts_before_jobs_witness :
  (2 ≤ enabled_count (sample.single true false true false))%nat ∧
  result (main sample.fails_on_second (sample.single true false true false)
            sample.posix) = Exited 1 ∧
  encodes (trace (main sample.fails_on_second
                    (sample.single true false true false) sample.posix)) = [].
Proof.
  assert (Hcount : (2 ≤ enabled_count (sample.single true false true false))%nat)
    by (vm_compute; lia).
  split; [exact Hcount|].
  destruct (bad_selection_aborts_before_jobs sample.fails_on_second
              (sample.single true false true false) sample.posix (or_intror Hcount))
    as (-> & _ & _ & _).
  split; reflexivity.
Defined.

(** C7 as the specification states it does not hold.  Single-file mode with every format
    switch off: [main] leaves with code 1, and the directory it has made is
    the one the job would have written into. *)
Lemma aborted_run_has_made_the_output_directory :
  let cfg := sample.single false false false false in
  let run := main sample.fails_on_second cfg sample.posix in
  let made := {| anchor := "/"; names := ["out"; "2024-01-01_00-00-00"] |} in
  enabled_count cfg = 0 ∧
  result run = Exited 1 ∧
  mkdirs (trace run) = [made] ∧
  output_file_dir cfg sample.posix (output_dir cfg sample.posix)
    (Path sample.posix (input_file cfg)) = run_ret made.
Proof. vm_compute. repeat split; reflexivity. Qed.

End controller.

(** ** More on the orchestrator: every way a call can end *)

Section encoder_more.
Import ffmpeg_encode ffmpeg_encode_script observe observe_more.

(** The [try] block with its two [except] clauses always returns, and
    returns [True] only for an encoder seen to end with code 0. *)
Lemma try_block_result w vcmd fcmd env :
  result (try_except (run_pipeline w vcmd fcmd env) handle) =
    Returned (bool_decide (encoder_exit_code w = Some 0%Z)).
Proof.
  unfold run_pipeline, encoder_exit_code.
  destruct (vspipe_popen w) as [[]|]; try reflexivity.
  destruct (ffmpeg_popen w) as [[]|]; try reflexivity.
  destruct (ffmpeg_communicate w) as [[]|[[out err] rc]]; try reflexivity.
  destruct (decide (rc = 0%Z)) as [->|Hrc]; [reflexivity|].
  rewrite (bool_decide_eq_true_2 (rc ≠ 0%Z)) by done.
  rewrite (bool_decide_eq_false_2 (Some rc = Some 0%Z)) by congruence.
  destruct (decode_utf8 err); reflexivity.
Qed.

(** The result of [encode_video], for every standard output, every world
    and every format name. *)
Lemma encode_video_on_result stdout_error w input_path output_path fmt vpy_script env :
  result (encode_video_on stdout_error w input_path output_path fmt vpy_script env) =
    match first_refused stdout_error
            (announced input_path output_path fmt vpy_script) with
    | Some e => Raised e
    | None => Returned (bool_decide (is_Some (ENCODING_PROFILES !! fmt) ∧
                                     encoder_exit_code w = Some 0%Z))
    end.
Proof.
  unfold encode_video_on, announced.
  destruct (ENCODING_PROFILES !! fmt) as [p|] eqn:Hp; [|reflexivity].
  destruct (catalog_builds _ _ input_path output_path Hp) as [cmd Hcmd].
  rewrite (catalog_not_empty _ _ Hp), Hcmd. cbn [first_refused].
  unfold print_stdout.
  destruct (stdout_error _) as [e1|]; [reflexivity|].
  destruct (stdout_error _) as [e2|]; [reflexivity|].
  pose proof (try_block_result w (vspipe_cmd vpy_script) cmd env) as Htry.
  destruct (try_except _ _) as [r t]. unfold result in *. simpl in *.
  rewrite Htry. f_equal. apply bool_decide_ext.
  split; [intros Hcode; split; [by eexists|exact Hcode]|by intros [_ Hcode]].
Qed.

(** A call that a refused line ends has started no process and written
    nothing on the error stream. *)
Lemma refused_print_starts_nothing
    stdout_error w input_path output_path fmt vpy_script env e :
  first_refused stdout_error (announced input_path output_path fmt vpy_script)
    = Some e →
  popens (trace (encode_video_on stdout_error w input_path output_path fmt
                   vpy_script env)) = [] ∧
  diagnostics (trace (encode_video_on stdout_error w input_path output_path fmt
                        vpy_script env)) = [].
Proof.
  unfold encode_video_on, announced.
  destruct (ENCODING_PROFILES !! fmt) as [p|] eqn:Hp; [|discriminate].
  destruct (catalog_builds _ _ input_path output_path Hp) as [cmd Hcmd].
  rewrite (catalog_not_empty _ _ Hp), Hcmd. cbn [first_refused].
  unfold print_stdout.
  destruct (stdout_error _) as [e1|]; [done|].
  destruct (stdout_error _) as [e2|]; [done|discriminate].
Qed.

(** X1. An exception leaves [encode_video] only when the standard output
    refuses one of the two command lines it prints before the [try] block:
    that exception is the result, and no process has been started and
    nothing written on the error stream.  When both lines are taken, or the
    format is unknown and none is printed, [encode_video] returns a
    boolean, whatever the two processes do.  It never leaves through
    [sys.exit]. *)
Theorem encode_video_raises_only_for_refused_print
    stdout_error w input_path output_path fmt vpy_script env :
  let run := encode_video_on stdout_error w input_path output_path fmt
               vpy_script env in
  match first_refused stdout_error
          (announced input_path output_path fmt vpy_script) with
  | Some e =>
    result run = Raised e ∧ popens (trace run) = [] ∧ diagnostics (trace run) = []
  | None => ∃ b : bool, result run = Returned b
  end.
Proof.
  intros run. subst run.
  pose proof (encode_video_on_result stdout_error w input_path output_path fmt
                vpy_script env) as Hres.
  pose proof (refused_print_starts_nothing stdout_error w input_path output_path
                fmt vpy_script env) as Hquiet.
  destruct (first_refused _ _) as [e|].
  - split; [exact Hres|]. exact (Hquiet e eq_refl).
  - eexists. exact Hres.
Qed.

(** X2. [encode_video] returns [True] exactly when the format is a key of
    the catalog, the standard output took both command lines, both
    processes started, and the encoder was waited for and ended with code
    0.  It returns [False] exactly when no line was refused and one of the
    others fails.  In the one remaining case, a refused line, it raises. *)
Theorem encode_video_true_iff
    stdout_error w input_path output_path fmt vpy_script env :
  let run := encode_video_on stdout_error w input_path output_path fmt
               vpy_script env in
  let printed := first_refused stdout_error
                   (announced input_path output_path fmt vpy_script) = None in
  let clean := is_Some (ENCODING_PROFILES !! fmt) ∧
               vspipe_popen w = None ∧ ffmpeg_popen w = None ∧
               ∃ out err, ffmpeg_communicate w = inr (out, err, 0%Z) in
  (result run = Returned true ↔ printed ∧ clean) ∧
  (result run = Returned false ↔ printed ∧ ¬ clean) ∧
  (∀ e, result run = Raised e ↔
        first_refused stdout_error
          (announced input_path output_path fmt vpy_script) = Some e).
Proof.
  intros run printed clean. subst run printed.
  rewrite encode_video_on_result.
  assert (Hclean : clean ↔ is_Some (ENCODING_PROFILES !! fmt) ∧
                           encoder_exit_code w = Some 0%Z).
  { subst clean. unfold encoder_exit_code. split.
    - intros (Hp & Hv & Hf & out & err & Hc). by rewrite Hv, Hf, Hc.
    - intros [Hp Hcode]. split; [exact Hp|].
      destruct (vspipe_popen w); [discriminate|].
      destruct (ffmpeg_popen w); [discriminate|].
      destruct (ffmpeg_communicate w) as [|[[out err] rc]]; [discriminate|].
      injection Hcode as ->. eauto. }
  destruct (first_refused _ _) as [e|].
  - split; [|split].
    + split; [discriminate|]. by intros [? _].
    + split; [discriminate|]. by intros [? _].
    + intros e'. split; congruence.
  - split; [|split].
    + split.
      * intros [= H]. apply bool_decide_eq_true in H. split; [done|]. by apply Hclean.
      * intros [_ H]. f_equal. apply bool_decide_eq_true_2. by apply Hclean.
    + split.
      * intros [= H]. apply bool_decide_eq_false in H. split; [done|].
        intros Hc. apply H. by apply Hclean.
      * intros [_ H]. f_equal. apply bool_decide_eq_false_2.
        intros Hc. apply H. by apply Hclean.
    + intros e'. split; discriminate.
Qed.

(** A standard output that cannot encode the input path: the line with
    the encoder command is refused, the exception leaves [encode_video],
    and no process has been started. *)
Lemma refused_command_line_leaves_encode_video :
  let run := encode_video_on sample_more.ascii_stdout (sample.encoder_ends 0 [] 0)
               (String (Ascii.ascii_of_nat 233) ".mkv") "out.mkv"
               "ffv1_10bit_422" "process.vpy" ∅ in
  run = (Raised (OtherException "UnicodeEncodeError"),
         [Stdout "VSPipe command: vspipe -c y4m process.vpy -"]).
Proof. vm_compute. reflexivity. Qed.

(** The result of [encode_video] on a standard output that takes every
    line. *)
Lemma encode_video_result w input_path output_path fmt vpy_script env :
  result (encode_video w input_path output_path fmt vpy_script env) =
    Returned (bool_decide (is_Some (ENCODING_PROFILES !! fmt) ∧
                           encoder_exit_code w = Some 0%Z)).
Proof.
  unfold encode_video. rewrite encode_video_on_result.
  assert (Hnone : ∀ lines, first_refused (λ _, None) lines = None)
    by (induction lines; done).
  by rewrite Hnone.
Qed.

(** X3. When the frame source cannot be started, the encoder is not
    started either and nothing is waited for; the call returns [False]. *)
Theorem frame_source_failure_skips_encoder
    w input_path output_path fmt p vpy_script env e :
  ENCODING_PROFILES !! fmt = Some p →
  vspipe_popen w = Some e →
  result (encode_video w input_path output_path fmt vpy_script env) = Returned false ∧
  popens (trace (encode_video w input_path output_path fmt vpy_script env)) =
    [(vspipe_cmd vpy_script, Some env)] ∧
  waited (trace (encode_video w input_path output_path fmt vpy_script env)) = false.
Proof.
  intros Hp Hv.
  destruct (catalog_builds _ _ input_path output_path Hp) as [cmd Hcmd].
  rewrite (encode_video_found _ _ _ _ _ _ _ _ Hp Hcmd).
  unfold run_pipeline. rewrite Hv. destruct e; repeat split; reflexivity.
Qed.

Lemma frame_source_failure_skips_encoder_witness :
  ENCODING_PROFILES !! "ffv1_10bit_422" = Some sample.ffv1_10bit_422 ∧
  popens (trace (encode_video
                   {| vspipe_popen := Some (FileNotFoundError "vspipe");
                      ffmpeg_popen := None;
                      ffmpeg_communicate := inr ([], [], 0%Z);
                      vspipe_returncode := 0 |}
                   "in.mkv" "out.mkv" "ffv1_10bit_422" "process.vpy" ∅)) =
    [(["vspipe"; "-c"; "y4m"; "process.vpy"; "-"], Some ∅)].
Proof.
  split; [vm_compute; reflexivity|].
  apply (frame_source_failure_skips_encoder
           {| vspipe_popen := Some (FileNotFoundError "vspipe");
              ffmpeg_popen := None;
              ffmpeg_communicate := inr ([], [], 0%Z);
              vspipe_returncode := 0 |}
           "in.mkv" "out.mkv" "ffv1_10bit_422" sample.ffv1_10bit_422
           "process.vpy" ∅ (FileNotFoundError "vspipe"));
    [vm_compute; reflexivity|reflexivity].
Defined.

(** X4. When starting either process or waiting for the encoder raises,
    [encode_video] returns [False] and reports the exception: with the
    "Command not found" line when it is a [FileNotFoundError], as an
    unexpected error otherwise. *)
Theorem outside_failure_is_reported
    w input_path output_path fmt p vpy_script env e :
  ENCODING_PROFILES !! fmt = Some p →
  first_failure w = Some e →
  result (encode_video w input_path output_path fmt vpy_script env) = Returned false ∧
  diagnostics (trace (encode_video w input_path output_path fmt vpy_script env)) =
    failure_report e.
Proof.
  intros Hp Hfail.
  destruct (catalog_builds _ _ input_path output_path Hp) as [cmd Hcmd].
  rewrite (encode_video_found _ _ _ _ _ _ _ _ Hp Hcmd).
  unfold run_pipeline. unfold first_failure in Hfail.
  destruct (vspipe_popen w) as [e1|].
  { injection Hfail as ->. destruct e; split; reflexivity. }
  destruct (ffmpeg_popen w) as [e2|].
  { injection Hfail as ->. destruct e; split; reflexivity. }
  destruct (ffmpeg_communicate w) as [e3|]; [|discriminate].
  injection Hfail as ->. destruct e; split; reflexivity.
Qed.

Lemma outside_failure_is_reported_witness :
  ENCODING_PROFILES !! "ffv1_10bit_422" = Some sample.ffv1_10bit_422 ∧
  first_failure {| vspipe_popen := None;
                   ffmpeg_popen := Some (OtherException "Permission denied");
                   ffmpeg_communicate := inr ([], [], 0%Z);
                   vspipe_returncode := 0 |}
    = Some (OtherException "Permission denied") ∧
  diagnostics (trace (encode_video
                        {| vspipe_popen := None;
                           ffmpeg_popen := Some (OtherException "Permission denied");
                           ffmpeg_communicate := inr ([], [], 0%Z);
                           vspipe_returncode := 0 |}
                        "in.mkv" "out.mkv" "ffv1_10bit_422" "process.vpy" ∅)) =
    [StderrExn "An unexpected error occurred: " (OtherException "Permission denied")].
Proof.
  split; [vm_compute; reflexivity|]. split; [reflexivity|].
  apply (outside_failure_is_reported
           {| vspipe_popen := None;
              ffmpeg_popen := Some (OtherException "Permission denied");
              ffmpeg_communicate := inr ([], [], 0%Z);
              vspipe_returncode := 0 |}
           "in.mkv" "out.mkv" "ffv1_10bit_422" sample.ffv1_10bit_422
           "process.vpy" ∅ (OtherException "Permission denied"));
    [vm_compute; reflexivity|reflexivity].
Defined.

(** Text of bytes below 128 is UTF-8. *)
Lemma ascii_is_utf8 bs : is_ascii bs = true → utf8_valid bs = true.
Proof.
  induction bs as [|b bs IH]; [reflexivity|].
  unfold is_ascii. simpl. intros H. apply andb_true_iff in H as [Hb Hbs].
  assert (Hlow : in_range 0 127 b = true).
  { unfold in_range. apply N.ltb_lt in Hb. apply andb_true_iff. split.
    - apply N.leb_le. lia.
    - apply N.leb_le. lia. }
  rewrite Hlow. by apply IH.
Qed.

(** X5. Error output of the encoder that is plain ASCII is always
    reported: after a non-zero exit, the error stream gets the heading line
    and then the captured bytes, as text. *)
Theorem ascii_stderr_is_reported
    w input_path output_path fmt p vpy_script env out err rc :
  ENCODING_PROFILES !! fmt = Some p →
  vspipe_popen w = None →
  ffmpeg_popen w = None →
  ffmpeg_communicate w = inr (out, err, rc) →
  rc ≠ 0%Z →
  is_ascii err = true →
  diagnostics (trace (encode_video w input_path output_path fmt vpy_script env)) =
    [Stderr "Error during FFmpeg execution:";
     Stderr (String.string_of_list_byte err)].
Proof.
  intros Hp Hv Hf Hc Hrc Hascii.
  destruct (catalog_builds _ _ input_path output_path Hp) as [cmd Hcmd].
  rewrite (encode_video_found _ _ _ _ _ _ _ _ Hp Hcmd).
  rewrite (run_pipeline_ended _ _ _ _ _ _ _ Hv Hf Hc).
  rewrite bool_decide_eq_false_2 by done.
  unfold decode_utf8. rewrite (ascii_is_utf8 _ Hascii). reflexivity.
Qed.

Lemma ascii_stderr_is_reported_witness :
  ENCODING_PROFILES !! "ffv1_10bit_422" = Some sample.ffv1_10bit_422 ∧
  is_ascii [x62; x6f; x6f; x6d] = true ∧
  diagnostics (trace (encode_video (sample.encoder_ends 2 [x62; x6f; x6f; x6d] 0)
                        "in.mkv" "out.mkv" "ffv1_10bit_422" "process.vpy" ∅)) =
    [Stderr "Error during FFmpeg execution:"; Stderr "boom"].
Proof.
  split; [vm_compute; reflexivity|]. split; [reflexivity|].
  apply (ascii_stderr_is_reported (sample.encoder_ends 2 [x62; x6f; x6f; x6d] 0)
           "in.mkv" "out.mkv" "ffv1_10bit_422" sample.ffv1_10bit_422
           "process.vpy" ∅ [] [x62; x6f; x6f; x6d] 2%Z);
    [vm_compute; reflexivity|reflexivity|reflexivity|reflexivity|discriminate|reflexivity].
Defined.

End encoder_more.

(** ** The module run as a script *)

Section script.
Import ffmpeg_encode ffmpeg_encode_script observe observe_more.

(** With four arguments the script is one call of [encode_video], and its
    exit status is 0 or 1 after the boolean returned. *)
Lemma script_main_four script arg1 arg2 arg3 arg4 os_environ w :
  let env := <["VS_TARGET_FORMAT" := arg3]> (<["VS_INPUT_PATH" := arg1]> os_environ) in
  script_main script [arg1; arg2; arg3; arg4] os_environ w =
    (Exited (if bool_decide (is_Some (ENCODING_PROFILES !! arg3) ∧
                             encoder_exit_code w = Some 0%Z)
             then 0%Z else 1%Z),
     trace (encode_video w arg1 arg2 arg3 arg4 env)).
Proof.
  intros env. unfold script_main. fold env.
  pose proof (encode_video_result w arg1 arg2 arg3 arg4 env) as Hres.
  destruct (encode_video w arg1 arg2 arg3 arg4 env) as [r t].
  unfold result, trace in *. simpl in *. subst r. simpl.
  rewrite app_nil_r. reflexivity.
Qed.

Lemma script_main_usage script args os_environ w :
  length args ≠ 4 →
  script_main script args os_environ w =
    (Exited 1,
     [Stdout ("Usage: " +:+ script +:+
              " <input_path> <output_path> <format_name> <vpy_script>")]).
Proof.
  intros Hlen. unfold script_main.
  destruct args as [|a1 [|a2 [|a3 [|a4 [|a5 args]]]]]; try reflexivity.
  by destruct Hlen.
Qed.

(** X6. The exit status of the script is 0 or 1, and it is 0 exactly when
    it was given four arguments, the third is a format of the catalog, both
    processes started and the encoder ended with code 0.  With any other
    number of arguments no process is started. *)
Theorem script_exit_status script args os_environ w :
  (result (script_main script args os_environ w) = Exited 0 ∨
   result (script_main script args os_environ w) = Exited 1) ∧
  (result (script_main script args os_environ w) = Exited 0 ↔
   ∃ arg1 arg2 arg3 arg4,
     args = [arg1; arg2; arg3; arg4] ∧
     is_Some (ENCODING_PROFILES !! arg3) ∧
     encoder_exit_code w = Some 0%Z) ∧
  (length args ≠ 4 → popens (trace (script_main script args os_environ w)) = []).
Proof.
  destruct (decide (length args = 4)) as [Hlen|Hlen].
  - destruct args as [|a1 [|a2 [|a3 [|a4 [|a5 args]]]]]; try discriminate.
    rewrite script_main_four. unfold result. simpl.
    case_bool_decide as Hok.
    + split; [by left|]. split; [|done].
      split; [intros _; by eexists _, _, _, _|done].
    + split; [by right|]. split; [|done].
      split; [discriminate|].
      intros (b1 & b2 & b3 & b4 & [= -> -> -> ->] & Hp & Hcode).
      by destruct Hok.
  - rewrite (script_main_usage _ _ _ _ Hlen). unfold result. simpl.
    split; [by right|]. split; [|done].
    split; [discriminate|].
    intros (b1 & b2 & b3 & b4 & -> & _). by destruct Hlen.
Qed.

(** For a format of the catalog the first process [encode_video] tries
    to start is the frame source, with the environment it was given. *)
Lemma frame_source_started_first w input_path output_path fmt p vpy_script env :
  ENCODING_PROFILES !! fmt = Some p →
  ∃ rest,
    popens (trace (encode_video w input_path output_path fmt vpy_script env)) =
      (vspipe_cmd vpy_script, Some env) :: rest.
Proof.
  intros Hp.
  destruct (catalog_builds _ _ input_path output_path Hp) as [cmd Hcmd].
  rewrite (encode_video_found _ _ _ _ _ _ _ _ Hp Hcmd).
  unfold run_pipeline.
  destruct (vspipe_popen w) as [[]|]; try (eexists; reflexivity).
  destruct (ffmpeg_popen w) as [[]|]; try (eexists; reflexivity).
  destruct (ffmpeg_communicate w) as [[]|[[out err] rc]]; try (eexists; reflexivity).
  case_bool_decide; [|eexists; reflexivity].
  destruct (decode_utf8 err); eexists; reflexivity.
Qed.

(** X7. The frame source the script starts gets the environment of the
    script with [VS_INPUT_PATH] set to the first argument and
    [VS_TARGET_FORMAT] to the third; every other variable is as the script
    found it. *)
Theorem script_environment script arg1 arg2 arg3 arg4 os_environ w p :
  ENCODING_PROFILES !! arg3 = Some p →
  ∃ env rest,
    popens (trace (script_main script [arg1; arg2; arg3; arg4] os_environ w)) =
      (vspipe_cmd arg4, Some env) :: rest ∧
    env !! "VS_INPUT_PATH" = Some arg1 ∧
    env !! "VS_TARGET_FORMAT" = Some arg3 ∧
    ∀ k, k ≠ "VS_INPUT_PATH" → k ≠ "VS_TARGET_FORMAT" →
         env !! k = os_environ !! k.
Proof.
  intros Hp. rewrite script_main_four. unfold trace at 1. simpl.
  destruct (frame_source_started_first w arg1 arg2 arg3 p arg4
              (<["VS_TARGET_FORMAT" := arg3]> (<["VS_INPUT_PATH" := arg1]> os_environ))
              Hp) as [rest Hrest].
  eexists _, rest. split; [exact Hrest|].
  split; [by simplify_map_eq|]. split; [by simplify_map_eq|].
  intros k H1 H2. by simplify_map_eq.
Qed.

Lemma script_environment_witness :
  ENCODING_PROFILES !! "ffv1_10bit_422" = Some sample.ffv1_10bit_422 ∧
  ∃ env rest,
    popens (trace (script_main "ffmpeg_encode.py"
                     ["in.mkv"; "out.mkv"; "ffv1_10bit_422"; "process.vpy"]
                     {[ "PATH" := "/usr/bin" ]} (sample.encoder_ends 0 [] 0))) =
      (["vspipe"; "-c"; "y4m"; "process.vpy"; "-"], Some env) :: rest ∧
    env !! "VS_INPUT_PATH" = Some "in.mkv" ∧
    env !! "PATH" = Some "/usr/bin".
Proof.
  split; [vm_compute; reflexivity|].
  destruct (script_environment "ffmpeg_encode.py" "in.mkv" "out.mkv"
              "ffv1_10bit_422" "process.vpy" {[ "PATH" := "/usr/bin" ]}
              (sample.encoder_ends 0 [] 0) sample.ffv1_10bit_422)
    as (env & rest & Hpop & Hin & _ & Hother); [vm_compute; reflexivity|].
  exists env, rest. split; [exact Hpop|]. split; [exact Hin|].
  rewrite Hother by discriminate. vm_compute. reflexivity.
Defined.

End script.

(** ** More on the controller: selection, dependencies, discovery *)

Section controller_more.
Import pathlib ffmpeg_encode pipeline observe observe_more.

(** X8. [get_selected_format] returns a name exactly when one of the four
    switches is on and the three others are off, and the name is then the
    one of that switch. *)
Theorem selected_format_is_the_single_switch cfg fmt :
  get_selected_format cfg = Some fmt ↔
  ∃ i, format_names !! i = Some fmt ∧
       switches cfg = <[i := true]> [false; false; false; false].
Proof.
  unfold get_selected_format, switches. split.
  - destruct (enable_prores_422_hq_10bit cfg), (enable_prores_444_16bit cfg),
      (enable_ffv1_10bit_422 cfg), (enable_ffv1_12bit_444 cfg);
      vm_compute; intros [= <-];
      [exists 0|exists 1|exists 2|exists 3]; split; reflexivity.
  - intros (i & Hname & Hsw).
    destruct i as [|[|[|[|i]]]]; simpl in Hname, Hsw;
      try discriminate; injection Hname as <-;
      injection Hsw as -> -> -> ->; reflexivity.
Qed.

(** X9. [check_dependencies] returns [True] exactly when both commands
    could be run, [ffmpeg] first and then [vspipe]. *)
Theorem dependencies_pass_iff_both_run h :
  result (check_dependencies h) = Returned true ↔
  run_help h "ffmpeg" = None ∧ run_help h "vspipe" = None.
Proof.
  unfold check_dependencies. simpl. split.
  - destruct (run_help h "ffmpeg") as [[]|]; try discriminate.
    destruct (run_help h "vspipe") as [[]|]; try discriminate. done.
  - intros [-> ->]. reflexivity.
Qed.

(** X10. [check_dependencies] returns [False] only for a command that is
    not found: it stops at the first such command, names it in the error
    it logs last, and has tried no command after it. *)
Theorem failed_check_names_first_missing_tool h :
  result (check_dependencies h) = Returned false →
  ∃ cmd detail,
    run_help h cmd = Some (FileNotFoundError detail) ∧
    last (trace (check_dependencies h)) =
      Some (Log ERROR ("Dependency not found: " +:+ cmd +:+
              ". Please ensure it is installed and in your system's PATH.")) ∧
    ((cmd = "ffmpeg" ∧ probes (trace (check_dependencies h)) = ["ffmpeg"]) ∨
     (cmd = "vspipe" ∧ run_help h "ffmpeg" = None ∧
      probes (trace (check_dependencies h)) = ["ffmpeg"; "vspipe"])).
Proof.
  unfold check_dependencies. simpl.
  destruct (run_help h "ffmpeg") as [[d1| | | |]|] eqn:Hffmpeg; try discriminate.
  - intros _. exists "ffmpeg", d1. split; [exact Hffmpeg|].
    split; [reflexivity|]. by left.
  - destruct (run_help h "vspipe") as [[d2| | | |]|] eqn:Hvspipe; try discriminate.
    intros _. exists "vspipe", d2. split; [exact Hvspipe|].
    split; [reflexivity|]. by right.
Qed.

Lemma failed_check_names_first_missing_tool_witness :
  result (check_dependencies sample_more.without_ffmpeg) = Returned false ∧
  ∃ cmd,
    is_Some (run_help sample_more.without_ffmpeg cmd) ∧
    last (trace (check_dependencies sample_more.without_ffmpeg)) =
      Some (Log ERROR ("Dependency not found: " +:+ cmd +:+
              ". Please ensure it is installed and in your system's PATH.")).
Proof.
  split; [vm_compute; reflexivity|].
  destruct (failed_check_names_first_missing_tool sample_more.without_ffmpeg)
    as (cmd & detail & Hmissing & Hlast & _); [vm_compute; reflexivity|].
  exists cmd. split; [by eexists|exact Hlast].
Defined.

(** The membership test of the discovery, on one path. *)
Lemma find_video_files_elem h directory recursive file_path :
  file_path ∈ find_video_files h directory recursive ↔
  ∃ rel,
    rel ∈ glob h (Path h directory) (if recursive then "**/*" else "*") ∧
    file_path = {| anchor := anchor (Path h directory);
                   names := names (Path h directory) ++ rel |} ∧
    is_file h file_path = true ∧
    lower h (suffix file_path) ∈ supported_extensions.
Proof.
  unfold find_video_files. rewrite list_elem_of_filter, list_elem_of_fmap. split.
  - intros [[Hfile Hext] (rel & -> & Hrel)]. eauto.
  - intros (rel & Hrel & -> & Hfile & Hext). eauto.
Qed.

(** X11. What the discovery returns: exactly the matches of the glob
    pattern that are files and whose suffix, in lower case, is one of the
    six supported ones; in the order of the glob; and without repetition
    when the glob has none. *)
Theorem discovery_keeps_supported_files h directory (recursive : bool) :
  let d := Path h directory in
  let found := glob h d (if recursive then "**/*" else "*") in
  let below (rel : list string) : path :=
    {| anchor := anchor d; names := names d ++ rel |} in
  (∀ file_path,
     file_path ∈ find_video_files h directory recursive ↔
     ∃ rel, rel ∈ found ∧ file_path = below rel ∧
            is_file h file_path = true ∧
            lower h (suffix file_path) ∈ supported_extensions) ∧
  find_video_files h directory recursive `sublist_of` (below <$> found) ∧
  (NoDup found → NoDup (find_video_files h directory recursive)).
Proof.
  intros d found below. split; [|split].
  - intros file_path. apply find_video_files_elem.
  - apply sublist_filter.
  - intros Hnodup. apply NoDup_filter. apply NoDup_fmap_2; [|exact Hnodup].
    intros r1 r2 [= H]. by apply app_inv_head in H.
Qed.

Lemma discovery_keeps_supported_files_witness :
  NoDup (glob sample.posix (Path sample.posix "/in") "**/*") ∧
  NoDup (find_video_files sample.posix "/in" true) ∧
  {| anchor := "/"; names := ["in"; "notes.txt"] |}
    ∉ find_video_files sample.posix "/in" true.
Proof.
  assert (Hnodup : NoDup (glob sample.posix (Path sample.posix "/in") "**/*"))
    by (apply (bool_decide_unpack _); vm_compute; exact I).
  destruct (discovery_keeps_supported_files sample.posix "/in" true)
    as (Helem & _ & Hkeep).
  split; [exact Hnodup|]. split; [exact (Hkeep Hnodup)|].
  intros Hin. apply Helem in Hin as (rel & _ & _ & _ & Hext).
  vm_compute in Hext. by repeat (apply elem_of_cons in Hext as [?|Hext]; [done|]);
    apply elem_of_nil in Hext.
Defined.

(** [main] up to the end of the dependency check, for a valid selection. *)
Lemma main_stops_at_check orch cfg h fmt r :
  get_selected_format cfg = Some fmt →
  result (check_dependencies h) = r →
  r ≠ Returned true →
  main orch cfg h =
    (match r with
     | Returned _ => Exited 1
     | Raised e => Raised e
     | Exited code => Exited code
     end,
     before_dependency_check cfg h fmt ++ trace (check_dependencies h)).
Proof.
  intros Hsel Hr Hne.
  destruct (selected_in_catalog _ _ Hsel) as (Hfmt & _).
  unfold main, main_on. rewrite Hsel. destruct fmt as [|c fmt]; [done|].
  destruct (check_dependencies h) as [r' t]. unfold result, trace in *.
  simpl in Hr. subst r'.
  destruct r as [[]|e|code]; [by destruct Hne|..]; simpl;
    rewrite ?app_nil_r; reflexivity.
Qed.

(** X12. With a valid selection and a tool that is not found, [main]
    leaves with code 1 right after the dependency check: nothing is
    discovered, no orchestrator is called, and the only directory made is
    the timestamped output directory. *)
Theorem missing_tool_aborts_before_jobs orch cfg h fmt :
  get_selected_format cfg = Some fmt →
  result (check_dependencies h) = Returned false →
  main orch cfg h =
    (Exited 1, before_dependency_check cfg h fmt ++ trace (check_dependencies h)) ∧
  encodes (trace (main orch cfg h)) = [] ∧
  mkdirs (trace (main orch cfg h)) = [output_dir cfg h].
Proof.
  intros Hsel Hdeps.
  rewrite (main_stops_at_check orch cfg h fmt _ Hsel Hdeps) by discriminate.
  split; [reflexivity|]. unfold trace at 1 3. simpl.
  unfold check_dependencies in *. simpl in *.
  destruct (run_help h "ffmpeg") as [[]|]; try discriminate; try (split; reflexivity).
  destruct (run_help h "vspipe") as [[]|]; try discriminate; split; reflexivity.
Qed.

Lemma missing_tool_aborts_before_jobs_witness :
  get_selected_format (sample.batch true) = Some "ffv1_10bit_422" ∧
  result (check_dependencies sample_more.without_ffmpeg) = Returned false ∧
  result (main sample.fails_on_second (sample.batch true)
            sample_more.without_ffmpeg) = Exited 1 ∧
  encodes (trace (main sample.fails_on_second (sample.batch true)
                    sample_more.without_ffmpeg)) = [].
Proof.
  split; [vm_compute; reflexivity|]. split; [vm_compute; reflexivity|].
  destruct (missing_tool_aborts_before_jobs sample.fails_on_second
              (sample.batch true) sample_more.without_ffmpeg "ffv1_10bit_422")
    as (Hmain & Henc & _); [vm_compute; reflexivity|vm_compute; reflexivity|].
  split; [by rewrite Hmain|exact Henc].
Defined.

(** X13. A tool that is found but whose trial run raises anything other
    than [FileNotFoundError] is not reported as missing: the exception
    leaves [check_dependencies] and [main] uncaught, before any job. *)
Theorem probe_error_escapes_main orch cfg h fmt e :
  get_selected_format cfg = Some fmt →
  result (check_dependencies h) = Raised e →
  result (main orch cfg h) = Raised e ∧
  encodes (trace (main orch cfg h)) = [] ∧
  ((run_help h "ffmpeg" = Some e ∨
    (run_help h "ffmpeg" = None ∧ run_help h "vspipe" = Some e)) ∧
   ∀ detail, e ≠ FileNotFoundError detail).
Proof.
  intros Hsel Hdeps.
  rewrite (main_stops_at_check orch cfg h fmt _ Hsel Hdeps) by discriminate.
  split; [reflexivity|]. unfold trace at 1. simpl.
  unfold check_dependencies in *. simpl in *.
  destruct (run_help h "ffmpeg") as [[]|]; try discriminate;
    try (injection Hdeps as <-; split; [reflexivity|split; [by left|discriminate]]).
  destruct (run_help h "vspipe") as [[]|]; try discriminate;
    injection Hdeps as <-; split; try reflexivity; (split; [by right|discriminate]).
Qed.

Lemma probe_error_escapes_main_witness :
  get_selected_format (sample.batch true) = Some "ffv1_10bit_422" ∧
  result (check_dependencies sample_more.vspipe_forbidden) =
    Raised (OtherException "Permission denied") ∧
  result (main sample.fails_on_second (sample.batch true)
            sample_more.vspipe_forbidden) =
    Raised (OtherException "Permission denied").
Proof.
  split; [vm_compute; reflexivity|]. split; [vm_compute; reflexivity|].
  apply (probe_error_escapes_main sample.fails_on_second (sample.batch true)
           sample_more.vspipe_forbidden "ffv1_10bit_422");
    vm_compute; reflexivity.
Defined.

(** [main] in single-file mode on a path that is not a file. *)
Lemma main_without_input_file orch cfg h fmt :
  get_selected_format cfg = Some fmt →
  result (check_dependencies h) = Returned true →
  batch_process_directory cfg = false →
  is_file h (Path h (input_file cfg)) = false →
  main orch cfg h =
    (Exited 1,
     before_dependency_check cfg h fmt ++ dependency_check_passed ++
     [Log INFO ("Starting single file processing for: " +:+ input_file cfg);
      Log ERROR ("Input file not found: " +:+ input_file cfg)]).
Proof.
  intros Hsel Hdeps Hb Hfile.
  destruct (selected_in_catalog _ _ Hsel) as (Hfmt & _).
  unfold main, main_on. rewrite Hsel. destruct fmt as [|c fmt]; [done|].
  rewrite (check_dependencies_passed h Hdeps).
  unfold discover. rewrite Hb, Hfile. reflexivity.
Qed.

(** X14. Single-file mode on a path that is not a file: after the checks
    [main] logs the error as its last line and leaves with code 1; no
    orchestrator is called and no directory is made for a job. *)
Theorem missing_input_file_aborts orch cfg h fmt :
  get_selected_format cfg = Some fmt →
  result (check_dependencies h) = Returned true →
  batch_process_directory cfg = false →
  is_file h (Path h (input_file cfg)) = false →
  result (main orch cfg h) = Exited 1 ∧
  last (trace (main orch cfg h)) =
    Some (Log ERROR ("Input file not found: " +:+ input_file cfg)) ∧
  encodes (trace (main orch cfg h)) = [] ∧
  mkdirs (trace (main orch cfg h)) = [output_dir cfg h].
Proof.
  intros Hsel Hdeps Hb Hfile.
  rewrite (main_without_input_file orch cfg h fmt Hsel Hdeps Hb Hfile).
  repeat split; reflexivity.
Qed.

Lemma missing_input_file_aborts_witness :
  get_selected_format (sample_more.single_on "/in/gone.mov") = Some "ffv1_10bit_422" ∧
  result (check_dependencies sample.posix) = Returned true ∧
  is_file sample.posix (Path sample.posix "/in/gone.mov") = false ∧
  result (main sample.fails_on_second (sample_more.single_on "/in/gone.mov")
            sample.posix) = Exited 1.
Proof.
  split; [vm_compute; reflexivity|]. split; [vm_compute; reflexivity|].
  split; [vm_compute; reflexivity|].
  apply (missing_input_file_aborts sample.fails_on_second
           (sample_more.single_on "/in/gone.mov") sample.posix "ffv1_10bit_422");
    vm_compute; reflexivity.
Defined.

(** X15. Batch mode over a directory in which the discovery finds
    nothing: [main] logs a warning, calls no orchestrator, makes no
    directory but the timestamped one, and ends normally. *)
Theorem empty_batch_ends_normally orch cfg h fmt :
  get_selected_format cfg = Some fmt →
  result (check_dependencies h) = Returned true →
  batch_process_directory cfg = true →
  find_video_files h (input_directory cfg) (process_subdirectories cfg) = [] →
  main orch cfg h =
    (Returned tt,
     before_dependency_check cfg h fmt ++ dependency_check_passed ++
     [Log INFO ("Starting batch processing for directory: " +:+ input_directory cfg);
      Log WARNING "No video files found in the specified directory.";
      Log INFO "Found 0 file(s) to process.";
      Log INFO "DitheryDoo processing finished."]).
Proof.
  intros Hsel Hdeps Hb Hnone.
  destruct (selected_in_catalog _ _ Hsel) as (Hfmt & _).
  unfold main, main_on. rewrite Hsel. destruct fmt as [|c fmt]; [done|].
  rewrite (check_dependencies_passed h Hdeps).
  unfold discover. rewrite Hb, Hnone. reflexivity.
Qed.

Lemma empty_batch_ends_normally_witness :
  get_selected_format (sample_more.batch_over "/empty") = Some "ffv1_10bit_422" ∧
  result (check_dependencies sample.posix) = Returned true ∧
  find_video_files sample.posix "/empty" false = [] ∧
  result (main sample.fails_on_second (sample_more.batch_over "/empty")
            sample.posix) = Returned tt.
Proof.
  split; [vm_compute; reflexivity|]. split; [vm_compute; reflexivity|].
  split; [vm_compute; reflexivity|].
  rewrite (empty_batch_ends_normally sample.fails_on_second
             (sample_more.batch_over "/empty") sample.posix "ffv1_10bit_422");
    vm_compute; reflexivity.
Defined.

(** When the discovery does not return, it is single-file mode on a path
    that is not a file, and it leaves with code 1. *)
Lemma discover_result cfg h :
  (∃ files, result (discover cfg h) = Returned files ∧
     (batch_process_directory cfg = true ∨
      is_file h (Path h (input_file cfg)) = true)) ∨
  (result (discover cfg h) = Exited 1 ∧
     batch_process_directory cfg = false ∧
     is_file h (Path h (input_file cfg)) = false).
Proof.
  unfold discover. destruct (batch_process_directory cfg).
  - left. case_bool_decide; eexists; (split; [reflexivity|by left]).
  - destruct (is_file h (Path h (input_file cfg))).
    + left. eexists. split; [reflexivity|by right].
    + right. done.
Qed.

(** One turn of the loop for a file whose directory is refused: the
    exception of [mkdir] leaves the loop body. *)
Lemma loop_body_refused r orch cfg h fmt total i file_path out e :
  planned_output cfg h fmt file_path = Some out →
  mkdir_error r (parent out) = Some e →
  result (loop_body r orch cfg h (now h) (output_dir cfg h) fmt
            (joinname (script_dir h) "process.vpy") total i file_path) = Raised e.
Proof.
  intros Hout Hrefused. unfold planned_output in Hout. unfold loop_body.
  assert (Hdir : ∃ dir, output_file_dir cfg h (output_dir cfg h) file_path
                          = run_ret dir).
  { unfold output_file_dir in *. destruct (batch_process_directory cfg).
    - destruct (relative_to _ _); [by eexists|discriminate].
    - by eexists. }
  destruct Hdir as [dir Hdir]. rewrite Hdir in *.
  destruct (result (file_ext fmt)) as [ext| |]; try discriminate.
  simpl in Hout. injection Hout as <-.
  rewrite parent_joinname in Hrefused.
  unfold run_bind, emit, run_ret. cbn beta iota zeta.
  unfold mkdir. rewrite Hrefused. reflexivity.
Qed.

(** A loop that returns has returned from each of its turns. *)
Lemma for_enumerate_returned {A} (body : nat → A → run event unit) xs i :
  result (for_enumerate i xs body) = Returned tt →
  ∀ x, x ∈ xs → ∃ k, result (body k x) = Returned tt.
Proof.
  revert i. induction xs as [|y xs IH]; intros i Hloop x Hin.
  - by apply elem_of_nil in Hin.
  - simpl in Hloop.
    destruct (body i y) as [[[]|e|code] t] eqn:Hbody; try discriminate.
    apply elem_of_cons in Hin as [->|Hin].
    + exists i. by rewrite Hbody.
    + apply (IH (S i)); [|exact Hin].
      unfold run_bind in Hloop.
      destruct (for_enumerate (S i) xs body) as [r' t']. exact Hloop.
Qed.

(** X16. [main] ends normally only if every step before and in the loop
    went through: the timestamped directory could be made and the logging
    set up, one format is selected, both tools could be run, the input is
    a directory to search or a file that exists, and the directory of no
    discovered file was refused.  This holds for every orchestrator. *)
Theorem normal_end_needs_every_step r orch cfg h :
  result (main_on r orch cfg h) = Returned tt →
  ∃ fmt files,
    get_selected_format cfg = Some fmt ∧
    mkdir_error r (output_dir cfg h) = None ∧
    logging_error r = None ∧
    result (check_dependencies h) = Returned true ∧
    result (discover cfg h) = Returned files ∧
    (batch_process_directory cfg = true ∨
     is_file h (Path h (input_file cfg)) = true) ∧
    Forall (λ f, ∀ out, planned_output cfg h fmt f = Some out →
                        mkdir_error r (parent out) = None) files.
Proof.
  intros Hmain. unfold main_on, mkdir in Hmain.
  destruct (mkdir_error r (output_dir cfg h)) eqn:Hmk; [discriminate|].
  destruct (logging_error r) eqn:Hlog; [discriminate|].
  destruct (get_selected_format cfg) as [fmt|] eqn:Hsel; [|discriminate].
  destruct fmt as [|c fmt]; [discriminate|].
  exists (String c fmt).
  destruct (check_dependencies h) as [[[]|e|code] tcheck] eqn:Hcheck;
    try discriminate.
  destruct (discover_result cfg h) as [(files & Hdisc & Hmode)|(Hdisc & _)];
    cycle 1.
  { destruct (discover cfg h) as [rd td]. unfold result in Hdisc.
    simpl in Hdisc. subst rd. discriminate. }
  exists files. do 4 (split; [done|]). split; [exact Hdisc|].
  split; [exact Hmode|].
  destruct (discover cfg h) as [rd td]. unfold result in Hdisc.
  simpl in Hdisc. subst rd.
  unfold run_bind, emit, run_ret, negb in Hmain. cbn beta iota zeta in Hmain.
  destruct (for_enumerate 0 files _) as [[[]|e|code] tloop] eqn:Hloop;
    try discriminate.
  apply Forall_forall. intros f Hin out Hout.
  destruct (mkdir_error r (parent out)) as [e|] eqn:Hrefused; [|reflexivity].
  destruct (for_enumerate_returned _ _ _ (f_equal fst Hloop) f Hin) as [k Hk].
  rewrite (loop_body_refused _ _ _ _ _ _ _ _ _ _ Hout Hrefused) in Hk.
  discriminate.
Qed.

Lemma normal_end_needs_every_step_witness :
  result (main_on no_refusals sample.fails_on_second (sample.batch true)
            sample.posix) = Returned tt ∧
  get_selected_format (sample.batch true) = Some "ffv1_10bit_422".
Proof.
  assert (Hrun : result (main_on no_refusals sample.fails_on_second
                           (sample.batch true) sample.posix) = Returned tt)
    by (vm_compute; reflexivity).
  split; [exact Hrun|].
  destruct (normal_end_needs_every_step _ _ _ _ Hrun)
    as (fmt & files & Hsel & _).
  rewrite Hsel. f_equal. vm_compute in Hsel. by injection Hsel as <-.
Defined.

End controller_more.

(** ** More on the jobs: environment, outcome, output name *)

Section jobs.
Import pathlib ffmpeg_encode pipeline observe observe_more.

(** [process_file] calls the orchestrator once, with the job environment. *)
Lemma process_file_call enc cfg h input_path output_path fmt vpy :
  encode_calls (trace (process_file enc cfg h input_path output_path fmt vpy)) =
    [(job_env cfg h fmt input_path,
      trace (enc (str (sep h) input_path) (str (sep h) output_path) fmt
                 (str (sep h) vpy) (job_env cfg h fmt input_path)))].
Proof.
  unfold process_file. fold (job_env cfg h fmt input_path).
  destruct (enc _ _ _ _ _) as [[[]|e|code] t]; reflexivity.
Qed.

(** X17. The environment [process_file] passes on is the inherited one
    with seven variables set: the input path, the format, the GPU switch,
    the dithering method, the frame limit (["0"] unless test mode is on),
    the debanding switch and its strength.  No other variable changes. *)
Theorem job_environment enc cfg h input_path output_path fmt vpy :
  ∃ env io,
    encode_calls (trace (process_file enc cfg h input_path output_path fmt vpy)) =
      [(env, io)] ∧
    env !! "VS_INPUT_PATH" = Some (str (sep h) input_path) ∧
    env !! "VS_TARGET_FORMAT" = Some fmt ∧
    env !! "VS_USE_GPU" = Some (str_bool (use_nvidia_gpu cfg)) ∧
    env !! "VS_DITHER_MODE" = Some (dithering_algorithm cfg) ∧
    env !! "VS_TEST_FRAMES" =
      Some (if test_mode cfg then pretty (test_frames cfg) else "0") ∧
    env !! "VS_ENABLE_DEBANDING" = Some (str_bool (enable_debanding cfg)) ∧
    env !! "VS_DEBAND_STRENGTH" = Some (debanding_strength cfg) ∧
    ∀ k, k ∉ job_variables → env !! k = environ h !! k.
Proof.
  eexists _, _. split; [apply process_file_call|].
  unfold job_env. repeat (split; [by simplify_map_eq|]).
  intros k Hk. unfold job_variables in Hk.
  rewrite !not_elem_of_cons in Hk. destruct Hk as (?&?&?&?&?&?&?&_).
  by simplify_map_eq.
Qed.

(** X18. With the shipped [encode_video], [process_file] always returns
    normally.  It logs the file and makes the call.  When the standard
    output refuses one of the two command lines, the exception that leaves
    [encode_video] is caught by the [except] branch and logged as an
    unexpected error; that is the only way into that branch.  Otherwise it
    logs success when the encoder of a catalog format ended with code 0,
    failure in every other case. *)
Theorem shipped_job_outcome_is_logged
    stdout_error w cfg h input_path output_path fmt vpy :
  let input := str (sep h) input_path in
  let output := str (sep h) output_path in
  let env := job_env cfg h fmt input_path in
  let io := trace (encode_video_on stdout_error w input output fmt
                     (str (sep h) vpy) env) in
  process_file (encode_video_on stdout_error w) cfg h input_path output_path fmt vpy =
    (Returned tt,
     match first_refused stdout_error
             (announced input output fmt (str (sep h) vpy)) with
     | Some e =>
       [Log INFO ("Processing file: " +:+ input);
        Encode input output fmt (str (sep h) vpy) env io (Raised e);
        LogExn ERROR ("An unexpected error occurred while processing "
                      +:+ input +:+ ": ") e]
     | None =>
       let ok := bool_decide (is_Some (ENCODING_PROFILES !! fmt) ∧
                              encoder_exit_code w = Some 0%Z) in
       [Log INFO ("Processing file: " +:+ input);
        Encode input output fmt (str (sep h) vpy) env io (Returned ok);
        if ok
        then Log INFO ("Successfully processed and saved to " +:+ output)
        else Log ERROR ("Failed to process file: " +:+ input)]
     end).
Proof.
  intros input output env io. subst input output env io.
  rewrite process_file_trace.
  - rewrite encode_video_on_result.
    destruct (first_refused _ _) as [e|]; [reflexivity|].
    destruct (bool_decide _); reflexivity.
  - intros code. rewrite encode_video_on_result.
    destruct (first_refused _ _); discriminate.
Qed.

(** A job on a standard output that cannot encode the input path: the
    call raises, [process_file] logs the unexpected error and returns. *)
Lemma refused_command_line_is_logged :
  let input := {| anchor := "/";
                  names := ["in"; String (Ascii.ascii_of_nat 233) ".mkv"] |} in
  let run := process_file
               (encode_video_on sample_more.ascii_stdout (sample.encoder_ends 0 [] 0))
               (sample.batch true) sample.posix input
               {| anchor := "/"; names := ["out"; "e.mkv"] |} "ffv1_10bit_422"
               {| anchor := "/"; names := ["process.vpy"] |} in
  result run = Returned tt ∧
  last (trace run) =
    Some (LogExn ERROR ("An unexpected error occurred while processing "
                        +:+ str "/" input +:+ ": ")
            (OtherException "UnicodeEncodeError")).
Proof. vm_compute. split; reflexivity. Qed.

(** X24. With the shipped [encode_video], a run of [main] in which the
    output directory and the logging are set up, one format is selected,
    both tools could be run, the discovery returns and no job directory is
    refused ends normally with every discovered file handed to the
    orchestrator, in discovery order, whatever the processes of the jobs do
    and whatever the standard output refuses. *)
Theorem shipped_run_ends_normally r stdout_error ws cfg h fmt files :
  get_selected_format cfg = Some fmt →
  mkdir_error r (output_dir cfg h) = None →
  logging_error r = None →
  result (check_dependencies h) = Returned true →
  result (discover cfg h) = Returned files →
  Forall (λ f, ∀ out, planned_output cfg h fmt f = Some out →
                      mkdir_error r (parent out) = None) files →
  let run := main_on r (shipped_orchestrator_on stdout_error ws) cfg h in
  result run = Returned tt ∧
  (encodes (trace run)).*1 = str (sep h) <$> files.
Proof.
  intros Hsel Hmk Hlog Hdeps Hdisc Hfree run. subst run.
  assert (Hreach : reaches_every_job r (shipped_orchestrator_on stdout_error ws)
                     cfg h fmt files).
  { split; [|done]. intros k a b c d e code. unfold shipped_orchestrator_on.
    rewrite encode_video_on_result. destruct (first_refused _ _); discriminate. }
  split.
  - by rewrite (main_on_runs_every_job _ _ _ _ _ _ Hreach).
  - rewrite (main_on_encodes _ _ _ _ _ _ Hreach).
    destruct (selected_in_catalog _ _ Hsel) as (_ & p & Hp).
    destruct (discover_returned cfg h fmt p files Hp Hdisc) as [_ Hplanned].
    by apply job_call_inputs.
Qed.

Lemma shipped_run_ends_normally_witness :
  let run := main_on no_refusals
               (shipped_orchestrator_on sample_more.ascii_stdout
                  (λ _, sample.encoder_ends 1 [xff] 0))
               (sample.batch true) sample.posix in
  get_selected_format (sample.batch true) = Some "ffv1_10bit_422" ∧
  result run = Returned tt ∧
  (encodes (trace run)).*1 = ["/in/clip.mov"; "/in/clip.mkv"; "/in/sub/shot.MP4"].
Proof.
  split; [vm_compute; reflexivity|].
  apply (shipped_run_ends_normally no_refusals sample_more.ascii_stdout
           (λ _, sample.encoder_ends 1 [xff] 0) (sample.batch true) sample.posix
           "ffv1_10bit_422"
           [{| anchor := "/"; names := ["in"; "clip.mov"] |};
            {| anchor := "/"; names := ["in"; "clip.mkv"] |};
            {| anchor := "/"; names := ["in"; "sub"; "shot.MP4"] |}]);
    [vm_compute; reflexivity|reflexivity|reflexivity|vm_compute; reflexivity|
     vm_compute; reflexivity|].
  repeat constructor.
Defined.

(** When the frame source starts, the encoder is the second and last
    process [encode_video] tries to start. *)
Lemma both_processes_tried w input_path output_path fmt p vpy_script env cmd :
  ENCODING_PROFILES !! fmt = Some p →
  ffmpeg_cmd p input_path output_path = Some cmd →
  vspipe_popen w = None →
  popens (trace (encode_video w input_path output_path fmt vpy_script env)) =
    [(vspipe_cmd vpy_script, Some env); (cmd, None)].
Proof.
  intros Hp Hcmd Hv. rewrite (encode_video_found _ _ _ _ _ _ _ _ Hp Hcmd).
  unfold run_pipeline. rewrite Hv.
  destruct (ffmpeg_popen w) as [[]|]; try reflexivity.
  destruct (ffmpeg_communicate w) as [[]|[[out err] rc]]; try reflexivity.
  case_bool_decide; [|reflexivity].
  destruct (decode_utf8 err); reflexivity.
Qed.

(** Where the two paths stand in the encoder command. *)
Lemma ffmpeg_cmd_paths fmt p input_path output_path cmd :
  ENCODING_PROFILES !! fmt = Some p →
  ffmpeg_cmd p input_path output_path = Some cmd →
  cmd !! 4 = Some input_path ∧ last cmd = Some output_path.
Proof.
  intros Hp Hcmd. catalog_cases Hp; injection Hcmd as <-; split; reflexivity.
Qed.

(** X19. In a job of the shipped controller whose frame source starts,
    both processes are given the same input file: the frame source through
    [VS_INPUT_PATH], the encoder as its second input; and the last word of
    the encoder command is the output path of the job. *)
Theorem job_processes_share_the_input w cfg h input_path output_path fmt p vpy :
  ENCODING_PROFILES !! fmt = Some p →
  vspipe_popen w = None →
  ∃ env io cmd,
    encode_calls (trace (process_file (encode_video w) cfg h
                           input_path output_path fmt vpy)) = [(env, io)] ∧
    popens io = [(vspipe_cmd (str (sep h) vpy), Some env); (cmd, None)] ∧
    env !! "VS_INPUT_PATH" = Some (str (sep h) input_path) ∧
    cmd !! 4 = Some (str (sep h) input_path) ∧
    last cmd = Some (str (sep h) output_path).
Proof.
  intros Hp Hv.
  destruct (catalog_builds _ _ (str (sep h) input_path) (str (sep h) output_path) Hp)
    as [cmd Hcmd].
  destruct (ffmpeg_cmd_paths _ _ _ _ _ Hp Hcmd) as [Hin Hout].
  eexists _, _, cmd. split; [apply process_file_call|].
  split; [by apply (both_processes_tried _ _ _ _ p)|].
  split; [unfold job_env; by simplify_map_eq|]. done.
Qed.

Lemma job_processes_share_the_input_witness :
  ENCODING_PROFILES !! "ffv1_10bit_422" = Some sample.ffv1_10bit_422 ∧
  vspipe_popen (sample.encoder_ends 0 [] 0) = None ∧
  ∃ env io cmd,
    encode_calls (trace (process_file (encode_video (sample.encoder_ends 0 [] 0))
                           (sample.batch true) sample.posix
                           {| anchor := "/"; names := ["in"; "clip.mov"] |}
                           {| anchor := "/"; names := ["out"; "clip.mkv"] |}
                           "ffv1_10bit_422"
                           {| anchor := "/"; names := ["process.vpy"] |})) =
      [(env, io)] ∧
    env !! "VS_INPUT_PATH" = Some "/in/clip.mov" ∧
    cmd !! 4 = Some "/in/clip.mov" ∧
    last cmd = Some "/out/clip.mkv".
Proof.
  split; [vm_compute; reflexivity|]. split; [reflexivity|].
  destruct (job_processes_share_the_input (sample.encoder_ends 0 [] 0)
              (sample.batch true) sample.posix
              {| anchor := "/"; names := ["in"; "clip.mov"] |}
              {| anchor := "/"; names := ["out"; "clip.mkv"] |}
              "ffv1_10bit_422" sample.ffv1_10bit_422
              {| anchor := "/"; names := ["process.vpy"] |})
    as (env & io & cmd & Hcall & _ & Henv & Hin & Hout);
    [vm_compute; reflexivity|reflexivity|].
  exists env, io, cmd. done.
Defined.










(** X21. The two tables agree: whatever [get_selected_format] returns is
    a key of [ENCODING_PROFILES] and its entry has a codec and a pixel
    format, so for a selected format [encode_video] never ends in its
    "profile not found" branch: it always gets to try the frame source. *)
Theorem selection_is_a_catalog_key cfg fmt w input_path output_path vpy_script env :
  get_selected_format cfg = Some fmt →
  ∃ p rest,
    ENCODING_PROFILES !! fmt = Some p ∧
    is_Some (codec p) ∧ is_Some (pix_fmt p) ∧
    popens (trace (encode_video w input_path output_path fmt vpy_script env)) =
      (vspipe_cmd vpy_script, Some env) :: rest.
Proof.
  intros Hsel. destruct (selected_in_catalog _ _ Hsel) as (_ & p & Hp).
  destruct (frame_source_started_first w input_path output_path fmt p
              vpy_script env Hp) as [rest Hrest].
  exists p, rest. split; [exact Hp|].
  split; [|split; [|exact Hrest]]; catalog_cases Hp; by eexists.
Qed.

Lemma selection_is_a_catalog_key_witness :
  get_selected_format pipeline.shipped = Some "prores_422_hq_10bit" ∧
  is_Some (ENCODING_PROFILES !! "prores_422_hq_10bit").
Proof.
  split; [vm_compute; reflexivity|].
  destruct (selection_is_a_catalog_key pipeline.shipped "prores_422_hq_10bit"
              (sample.encoder_ends 0 [] 0) "in.mkv" "out.mov" "process.vpy" ∅)
    as (p & _ & Hp & _); [vm_compute; reflexivity|].
  by exists p.
Defined.

End jobs.
